(** * Stage-1 feature pipeline of ml-soccer-outcomes

    A shallow embedding of [src/pipeline_stage1.py].  The script reads
    [MATCHES.csv] into a pandas frame, keeps and renames the columns it
    needs, drops unusable rows, encodes the label, adds home-minus-away
    difference columns, derives a partition year, splits by year and writes
    a thin CSV.

    Frames are modelled row by row: a frame is its list of column names plus
    its rows, each row carrying the index label it received when the file was
    read and a finite map from column name to cell value.  A column that is
    present but holds a missing value maps to [NA]; a column that is absent
    from the frame has no entry at all. *)

From Stdlib Require Import ZArith String Ascii Lia.
From stdpp Require Import base decidable option list sorting gmap strings.

Local Open Scope Z_scope.

(** ** Text helpers (ASCII view of Python [str]) *)

Definition is_lower (c : ascii) : bool :=
  let n := nat_of_ascii c in (97 <=? n)%nat && (n <=? 122)%nat.

Definition is_digit (c : ascii) : bool :=
  let n := nat_of_ascii c in (48 <=? n)%nat && (n <=? 57)%nat.

(** The ASCII characters [str.isspace] accepts: tab to carriage return,
    the four separators 28-31 and the space. *)
Definition is_space (c : ascii) : bool :=
  let n := nat_of_ascii c in
  ((9 <=? n)%nat && (n <=? 13)%nat) || ((28 <=? n)%nat && (n <=? 32)%nat).

(** [str.lstrip], [str.rstrip] and [str.strip] *)
Fixpoint lstrip (s : string) : string :=
  match s with
  | EmptyString => EmptyString
  | String c t => if is_space c then lstrip t else s
  end.

Fixpoint rstrip (s : string) : string :=
  match s with
  | EmptyString => EmptyString
  | String c t =>
      match rstrip t with
      | EmptyString => if is_space c then EmptyString else String c EmptyString
      | t' => String c t'
      end
  end.

Definition strip (s : string) : string := lstrip (rstrip s).

Definition upper_char (c : ascii) : ascii :=
  if is_lower c then ascii_of_nat (nat_of_ascii c - 32) else c.

(** [str.upper] *)
Fixpoint upper (s : string) : string :=
  match s with
  | EmptyString => EmptyString
  | String c t => String (upper_char c) (upper t)
  end.

Fixpoint all_chars (p : ascii → bool) (s : string) : bool :=
  match s with
  | EmptyString => true
  | String c t => p c && all_chars p t
  end.

(** [re.match(r"(\d{4})", s)]: four digits at the very start of [s]. *)
Definition four_digits (s : string) : option string :=
  match s with
  | String a (String b (String c (String d _))) =>
      if is_digit a && is_digit b && is_digit c && is_digit d
      then Some (String a (String b (String c (String d EmptyString))))
      else None
  | _ => None
  end.

(** [re.search(r"(\d{4})", s)]: the leftmost position where four digits
    start; this is what [Series.str.extract] returns per cell. *)
Fixpoint extract_4digits (s : string) : option string :=
  match four_digits s with
  | Some m => Some m
  | None =>
      match s with
      | EmptyString => None
      | String _ t => extract_4digits t
      end
  end.

Definition digit_value (c : ascii) : Z := Z.of_nat (nat_of_ascii c - 48).

(** The integer a run of decimal digits denotes. *)
Fixpoint digits_value_from (acc : Z) (s : string) : Z :=
  match s with
  | EmptyString => acc
  | String c t => digits_value_from (10 * acc + digit_value c) t
  end.

Definition digits_value (s : string) : Z := digits_value_from 0 s.

(** *** The first run of four digits, in the words of the specification

    These state, independently of [extract_4digits], what "the first 4-digit
    run of the season label" is; the theorem on the partition year compares
    the code with them. *)

Definition spec_decimal_digit (c : ascii) : Prop :=
  (48 ≤ nat_of_ascii c ≤ 57)%nat.

(** [m] consists of four decimal digits. *)
Definition spec_four_digit_text (m : string) : Prop :=
  ∃ a b c d,
    m = String a (String b (String c (String d EmptyString)))
    ∧ spec_decimal_digit a ∧ spec_decimal_digit b
    ∧ spec_decimal_digit c ∧ spec_decimal_digit d.

(** [t] begins with four decimal digits. *)
Definition spec_starts_with_four_digits (t : string) : Prop :=
  ∃ m post, spec_four_digit_text m ∧ t = m +:+ post.

(** [m] is the first run of four digits in [s]: [s] reads [pre], [m],
    [post], and four digits start at no earlier position. *)
Definition spec_first_four_digit_run (s m : string) : Prop :=
  spec_four_digit_text m
  ∧ ∃ pre post, s = pre +:+ m +:+ post
      ∧ ∀ pre' t, s = pre' +:+ t →
          (String.length pre' < String.length pre)%nat →
          ¬ spec_starts_with_four_digits t.

(** Four digits start at no position of [s]. *)
Definition spec_no_four_digit_run (s : string) : Prop :=
  ∀ pre t, s = pre +:+ t → ¬ spec_starts_with_four_digits t.

(** The number four decimal digits denote. *)
Definition spec_decimal (m : string) : Z :=
  match m with
  | String a (String b (String c (String d EmptyString))) =>
      1000 * (Z.of_nat (nat_of_ascii a) - 48)
      + 100 * (Z.of_nat (nat_of_ascii b) - 48)
      + 10 * (Z.of_nat (nat_of_ascii c) - 48)
      + (Z.of_nat (nat_of_ascii d) - 48)
  | _ => 0
  end.

(** [repr] of a list of plain column names, as an f-string prints it:
    ['MatchDate', 'FTResult']. *)
Definition repr_str (s : string) : string := "'" +:+ s +:+ "'".

Fixpoint join (sep : string) (l : list string) : string :=
  match l with
  | [] => ""
  | [s] => s
  | s :: t => s +:+ sep +:+ join sep t
  end.

Definition repr_list (l : list string) : string :=
  "[" +:+ join ", " (repr_str <$> l) +:+ "]".

(** [needle in haystack] on text. *)
Fixpoint contains (needle hay : string) : bool :=
  String.prefix needle hay ||
  match hay with
  | EmptyString => false
  | String _ t => contains needle t
  end.

(** ** The pandas operations the script relies on

    The coercions and the arithmetic of pandas are taken as an interface:
    the pipeline is modelled for any implementation of them. *)

Class Pandas := {
  (** a numeric cell: an int64 or a float64 other than NaN (NaN is the
      missing marker), as the dtype of its column has it *)
  number : Type;
  (** the subtraction of two numeric cells as pandas does it on their
      columns: with wrap-around on two int64, IEEE on float64, an int64
      promoted when the other side is a float64; [None] when the
      difference is NaN *)
  number_sub : number → number → option number;
  (** [pd.to_numeric(errors="coerce")] on one cell of a column.  The
      conversion is per column: a column whose cells are all integers stays
      int64, any other becomes float64, so the reading of a cell depends on
      the texts of all cells of its column, given first (a missing cell as
      [None]); [None] when the text of the cell is not numeric *)
  to_numeric : list (option string) → string → option number;
  (** pandas timestamps *)
  Timestamp : Type;
  (** [pd.to_datetime(errors="coerce")] on one cell; [None] is NaT *)
  to_datetime : string → option Timestamp;
  (** [.dt.year] *)
  dt_year : Timestamp → Z;
  (** How [astype(str)] treats a missing cell: with object-dtype strings
      (pandas before 3.0) it becomes the text "nan" ([false]); with the
      dedicated string dtype it stays missing ([true]). *)
  str_keeps_na : bool
}.

(** An implementation used to run the model on examples: int64 columns of
    unsigned decimal integers for the numeric cells, whatever the other
    cells of the column, and ISO dates (YYYY-MM-DD). *)
Definition sample_to_numeric (column : list (option string)) (s : string)
    : option Z :=
  match s with
  | EmptyString => None
  | _ => if all_chars is_digit s && (digits_value s <? 2 ^ 63)
         then Some (digits_value s) else None
  end.

(** The representative of an integer in the int64 range. *)
Definition wrap64 (z : Z) : Z := (z + 2 ^ 63) mod 2 ^ 64 - 2 ^ 63.

Definition sample_to_datetime (s : string) : option (Z * Z * Z) :=
  match s with
  | String y1 (String y2 (String y3 (String y4
      (String "-" (String m1 (String m2
        (String "-" (String d1 (String d2 EmptyString))))))))) =>
      let y := String y1 (String y2 (String y3 (String y4 EmptyString))) in
      let m := String m1 (String m2 EmptyString) in
      let d := String d1 (String d2 EmptyString) in
      if all_chars is_digit y && all_chars is_digit m && all_chars is_digit d
         && (1 <=? digits_value m) && (digits_value m <=? 12)
         && (1 <=? digits_value d) && (digits_value d <=? 31)
      then Some (digits_value y, digits_value m, digits_value d)
      else None
  | _ => None
  end.

Definition sample_pandas : Pandas := {|
  number := Z;
  number_sub := λ x y, Some (wrap64 (x - y));
  to_numeric := sample_to_numeric;
  Timestamp := Z * Z * Z;
  to_datetime := sample_to_datetime;
  dt_year := λ t, t.1.1;
  str_keeps_na := false
|}.

(** The same with the string dtype that keeps missing values. *)
Definition sample_pandas3 : Pandas := {|
  number := Z;
  number_sub := λ x y, Some (wrap64 (x - y));
  to_numeric := sample_to_numeric;
  Timestamp := Z * Z * Z;
  to_datetime := sample_to_datetime;
  dt_year := λ t, t.1.1;
  str_keeps_na := true
|}.

(** ** Errors *)

Inductive Exception : Type :=
  | FileNotFoundError (msg : string)
  | RuntimeError (msg : string)
  | IntCastingNaNError.

Inductive result (A : Type) : Type :=
  | Ok (a : A)
  | Raise (e : Exception).
Arguments Ok {A} a.
Arguments Raise {A} e.

Definition bind {A B} (m : result A) (k : A → result B) : result B :=
  match m with
  | Ok a => k a
  | Raise e => Raise e
  end.

Notation "x ↢ m ;; k" := (bind m (λ x, k))
  (at level 100, m at next level, right associativity).

(** ** The input file as read by [pd.read_csv]

    [raw_columns] is the header; a row maps a column name to the text of its
    cell, a name without entry being a missing cell. *)
Definition RawRow := gmap string string.

Record RawFrame := mkRaw {
  raw_columns : list string;
  raw_rows : list RawRow
}.

Section Pipeline.
Context `{Pandas}.

(** ** Frames *)

Inductive value : Type :=
  | NA
  | Str (s : string)
  | Int (z : Z)
  | Num (x : number)
  | Date (t : Timestamp).

Definition notna (v : value) : bool :=
  match v with NA => false | _ => true end.

Record Row := mkRow {
  label : nat;
  cells : gmap string value
}.

Record DataFrame := mkFrame {
  columns : list string;
  rows : list Row
}.

(** [X.index]: the labels of the rows, in order. *)
Definition index (X : DataFrame) : list nat := label <$> rows X.

(** A column, seen as the function giving its cell in each row; every
    operation of the script on columns is elementwise and index-aligned. *)
Definition Series (R : Type) := R → value.

(** [df[c]] *)
Definition getitem (c : string) : Series RawRow :=
  λ r, from_option Str NA (r !! c).

(** [df.get(c)]: [None] when the header has no such column. *)
Definition get (df : RawFrame) (c : string) : option (Series RawRow) :=
  if bool_decide (c ∈ raw_columns df) then Some (getitem c) else None.

(** [X[c]] *)
Definition col (c : string) : Series Row :=
  λ r, default NA (cells r !! c).

Definition to_datetime_s {R} (s : Series R) : Series R :=
  λ r, match s r with
       | Str t => from_option Date NA (to_datetime t)
       | Date t => Date t
       | _ => NA
       end.

(** [.astype(str)] *)
Definition astype_str {R} (s : Series R) : Series R :=
  λ r, match s r with
       | NA => if str_keeps_na then NA else Str "nan"
       | v => v
       end.

(** [.str.upper()] *)
Definition str_upper {R} (s : Series R) : Series R :=
  λ r, match s r with
       | Str t => Str (upper t)
       | _ => NA
       end.

(** [.str.extract(r"(\d{4})")[0]] *)
Definition str_extract_4digits {R} (s : Series R) : Series R :=
  λ r, match s r with
       | Str t => from_option Str NA (extract_4digits t)
       | _ => NA
       end.

(** [pd.to_numeric(year, errors="coerce")] on the extracted digit runs: a
    run of four decimal digits is read exactly. *)
Definition to_numeric_digits {R} (s : Series R) : Series R :=
  λ r, match s r with
       | Str t => Int (digits_value t)
       | _ => NA
       end.

(** [.dt.year] *)
Definition dt_year_s {R} (s : Series R) : Series R :=
  λ r, match s r with
       | Date t => Int (dt_year t)
       | _ => NA
       end.

(** [a.fillna(b)] *)
Definition fillna {R} (a b : Series R) : Series R :=
  λ r, match a r with
       | NA => b r
       | v => v
       end.

(** [.map(d)] for a dict [d] *)
Definition map_dict {R} (d : gmap string Z) (s : Series R) : Series R :=
  λ r, match s r with
       | Str t => from_option Int NA (d !! t)
       | _ => NA
       end.

(** [pd.to_numeric(s, errors="coerce")] for a column [s] whose cells have
    the texts [column]. *)
Definition to_numeric_s {R} (column : list (option string)) (s : Series R)
    : Series R :=
  λ r, match s r with
       | Str t => from_option Num NA (to_numeric column t)
       | Num x => Num x
       | _ => NA
       end.

(** [a - b] on numeric columns; a missing operand gives a missing result. *)
Definition sub {R} (a b : Series R) : Series R :=
  λ r, match a r, b r with
       | Num x, Num y => from_option Num NA (number_sub x y)
       | _, _ => NA
       end.

(** The row of [pd.DataFrame(data)] built from row [i] of the file: one cell
    per key of the dict [data]; a [None] entry is broadcast, giving a missing
    cell. *)
Definition new_row (data : list (string * option (Series RawRow)))
    (i : nat) (raw : RawRow) : Row :=
  mkRow i (list_to_map
    ((λ kv, (kv.1, from_option (λ s, s raw) NA kv.2)) <$> data)).

(** [pd.DataFrame(data)] for a dict [data] of columns of [df]: every key of
    the dict becomes a column, whether its entry is a column or [None].
    Rows keep the positional index of the file. *)
Definition new_frame (data : list (string * option (Series RawRow)))
    (df : RawFrame) : DataFrame :=
  {| columns := data.*1;
     rows := imap (new_row data) (raw_rows df) |}.

(** A row has no missing value in any column of [subset]. *)
Definition complete (subset : list string) (r : Row) : bool :=
  forallb (λ c, notna (col c r)) subset.

(** [X.dropna(subset=...)] *)
Definition dropna (subset : list string) (X : DataFrame) : DataFrame :=
  {| columns := columns X;
     rows := filter (λ r, complete subset r) (rows X) |}.

(** Writing one cell of a row. *)
Definition put (c : string) (v : value) (r : Row) : Row :=
  mkRow (label r) (<[c := v]> (cells r)).

(** [X[c] = s]: a new column goes last, an existing one is overwritten in
    place. *)
Definition assign (c : string) (s : Series Row) (X : DataFrame) : DataFrame :=
  {| columns := if bool_decide (c ∈ columns X) then columns X
                else columns X ++ [c];
     rows := (λ r, put c (s r) r) <$> rows X |}.

(** [X[c] = s.astype(int)]: the cast raises when a value is missing. *)
Definition assign_int (c : string) (s : Series Row) (X : DataFrame)
    : result DataFrame :=
  if forallb (λ r, notna (s r)) (rows X) then Ok (assign c s X)
  else Raise IntCastingNaNError.

(** [X[mask]] *)
Definition where_ (p : Row → bool) (X : DataFrame) : DataFrame :=
  {| columns := columns X;
     rows := filter (λ r, p r) (rows X) |}.

(** Keeping the cells of the columns [cols] in a row. *)
Definition project (cols : list string) (r : Row) : Row :=
  mkRow (label r) (filter (λ kv, kv.1 ∈ cols) (cells r)).

(** [X[cols]] *)
Definition select (cols : list string) (X : DataFrame) : DataFrame :=
  {| columns := cols;
     rows := project cols <$> rows X |}.

(** [s.notna().any()] over the rows of [X] *)
Definition any_notna (s : Series Row) (X : DataFrame) : bool :=
  existsb (λ r, notna (s r)) (rows X).

(** The integer held by a cell of an integer column. *)
Definition int_of (v : value) : option Z :=
  match v with Int z => Some z | _ => None end.

(** ** The script *)

Definition MATCHES_CSV : string :=
  "external/Club-Football-Match-Data-2000-2025/data/MATCHES.csv".

Definition must_have : list string :=
  ["MatchDate"; "FTResult"; "HomeTeam"; "AwayTeam"].

(** Line 17 *)
Definition missing (df : RawFrame) : list string :=
  filter (λ c, c ∉ raw_columns df) must_have.

(** Lines 22-44: the dict handed to [pd.DataFrame]. *)
Definition selection (df : RawFrame)
    : list (string * option (Series RawRow)) :=
  [ ("date",      Some (to_datetime_s (getitem "MatchDate")));
    ("home",      Some (getitem "HomeTeam"));
    ("away",      Some (getitem "AwayTeam"));
    ("result",    Some (str_upper (astype_str (getitem "FTResult"))));
    ("elo_h",     get df "HomeElo");
    ("elo_a",     get df "AwayElo");
    ("form3_h",   get df "Form3Home");
    ("form3_a",   get df "Form3Away");
    ("form5_h",   get df "Form5Home");
    ("form5_a",   get df "Form5Away");
    ("shots_h",   get df "HomeShots");
    ("shots_a",   get df "AwayShots");
    ("sot_h",     get df "HomeTarget");
    ("sot_a",     get df "AwayTarget");
    ("corners_h", get df "HomeCorners");
    ("corners_a", get df "AwayCorners");
    ("yc_h",      get df "HomeYellow");
    ("yc_a",      get df "AwayYellow");
    ("rc_h",      get df "HomeRed");
    ("rc_a",      get df "AwayRed");
    ("season",    get df "Season");
    ("league",    get df "Division") ].

(** Lines 22-45 *)
Definition normalize (df : RawFrame) : DataFrame :=
  dropna ["date"; "result"] (new_frame (selection df) df).

(** Line 48 *)
Definition map_features : gmap string Z :=
  <["A" := 1]> (<["D" := 2]> (<["H" := 3]> ∅)).

(** Lines 49-50 *)
Definition encode (X : DataFrame) : DataFrame :=
  dropna ["y"] (assign "y" (map_dict map_features (col "result")) X).

(** The texts of the cells of the column [X[c]], top to bottom. *)
Definition texts (c : string) (X : DataFrame) : list (option string) :=
  (λ r, match col c r with Str t => Some t | _ => None end) <$> rows X.

(** The helper [fnum] of lines 53-54 on the column [X[c]]. *)
Definition fnum (X : DataFrame) (c : string) : Series Row :=
  to_numeric_s (texts c X) (col c).

(** The expression [fnum(X[h]) - fnum(X[a])] of lines 57-59 and 69. *)
Definition diff (X : DataFrame) (h a : string) : Series Row :=
  sub (fnum X h) (fnum X a).

(** Lines 57-59 *)
Definition add_fixed_diffs (X : DataFrame) : DataFrame :=
  let X := assign "d_elo" (diff X "elo_h" "elo_a") X in
  let X := assign "d_form3" (diff X "form3_h" "form3_a") X in
  assign "d_form5" (diff X "form5_h" "form5_a") X.

(** Lines 61-67: the triples the loop runs over. *)
Definition pairs : list (string * string * string) :=
  [ ("shots_h", "shots_a", "d_shots");
    ("sot_h", "sot_a", "d_sot");
    ("corners_h", "corners_a", "d_corners");
    ("yc_h", "yc_a", "d_yc");
    ("rc_h", "rc_a", "d_rc") ].

(** Lines 68-69: one turn of the loop. *)
Definition add_pair (X : DataFrame) (p : string * string * string)
    : DataFrame :=
  let '(h, a, n) := p in
  if bool_decide (h ∈ columns X) && bool_decide (a ∈ columns X)
  then assign n (diff X h a) X
  else X.

(** Lines 61-69 *)
Definition add_pair_diffs (X : DataFrame) : DataFrame :=
  foldl add_pair X pairs.

(** Line 73 followed by the [to_numeric ... fillna] of line 74 (before the
    cast). *)
Definition season_year : Series Row :=
  fillna
    (to_numeric_digits (str_extract_4digits (astype_str (col "season"))))
    (dt_year_s (col "date")).

(** Lines 72-76 *)
Definition add_year (X : DataFrame) : result DataFrame :=
  if any_notna (col "season") X
  then assign_int "year" season_year X
  else assign_int "year" (dt_year_s (col "date")) X.

(** The comparisons of lines 78-80 on the [year] column. *)
Definition year_le (y : Z) (r : Row) : bool :=
  match col "year" r with Int z => z <=? y | _ => false end.

Definition year_eq (y : Z) (r : Row) : bool :=
  match col "year" r with Int z => z =? y | _ => false end.

(** [c.startswith("d_")] *)
Definition starts_with_d_ (c : string) : bool := String.prefix "d_" c.

(** Line 82 *)
Definition feature_cols_of (X : DataFrame) : list string :=
  filter (λ c, starts_with_d_ c) (columns X).

(** Line 90 *)
Definition out_cols_of (X : DataFrame) : list string :=
  ["date"; "home"; "away"; "y"; "year"] ++ feature_cols_of X.

(** What a run computes: the derived frame, the three splits, the printed
    counts and feature list (lines 84, 85, 87) and the frame written to
    [data/stage1_features.csv].  The class-balance printout of line 86 is a
    float-valued summary of [train] and is not part of the record. *)
Record Report := mkReport {
  X_final : DataFrame;
  train : DataFrame;
  validation : DataFrame;
  test : DataFrame;
  feature_cols : list string;
  total_usable : nat;
  split_sizes : nat * nat * nat;
  written : DataFrame
}.

(** Lines 78-92 *)
Definition split_and_report (X : DataFrame) : Report :=
  let train := where_ (year_le 2022) X in
  let validation := where_ (year_eq 2023) X in
  let test := where_ (year_eq 2024) X in
  let feature_cols := feature_cols_of X in
  {| X_final := X;
     train := train;
     validation := validation;
     test := test;
     feature_cols := feature_cols;
     total_usable := length (rows X);
     split_sizes := (length (rows train), length (rows validation),
                     length (rows test));
     written := select (out_cols_of X) X |}.

(** Lines 15-92 on the frame read from the file. *)
Definition pipeline (df : RawFrame) : result Report :=
  if bool_decide (missing df ≠ [])
  then Raise (RuntimeError
         ("MATCHES.csv missing required columns: " +:+ repr_list (missing df)))
  else
    let X := normalize df in
    let X := encode X in
    let X := add_fixed_diffs X in
    let X := add_pair_diffs X in
    X ↢ add_year X ;;
    Ok (split_and_report X).

(** ** The file system around a run *)

Record World := mkWorld {
  (** the content of [MATCHES_CSV], when the file exists *)
  matches_csv : option RawFrame;
  (** whether the directory [data] exists *)
  data_dir : bool;
  (** the content of [data/stage1_features.csv], when the file exists *)
  stage1_features : option DataFrame
}.

(** [main()]: the outcome of the run and the file system it leaves. *)
Definition main (w : World) : result Report * World :=
  match matches_csv w with
  | None =>
      (Raise (FileNotFoundError
         ("Missing " +:+ MATCHES_CSV +:+ ". Clone the dataset into external/.")),
       w)
  | Some df =>
      match pipeline df with
      | Raise e => (Raise e, w)
      | Ok rep =>
          (Ok rep,
           {| matches_csv := matches_csv w;
              data_dir := true;
              stage1_features := Some (written rep) |})
      end
  end.

(** ** Row view of the derivation

    The frame operations above act row by row.  These are the per-row
    functions they amount to, used to relate the rows of the derived frame
    to the rows of the file. *)

(** The parsed date and the label of a row of the file (lines 23, 26, 49). *)
Definition date_of : Series RawRow := to_datetime_s (getitem "MatchDate").

Definition result_of : Series RawRow :=
  str_upper (astype_str (getitem "FTResult")).

Definition label_of : Series RawRow := map_dict map_features result_of.

(** A row of the file survives the two [dropna] of lines 45 and 50. *)
Definition usable (raw : RawRow) : bool :=
  notna (date_of raw) && notna (label_of raw).

(** Line 49 on one row. *)
Definition with_label (r : Row) : Row :=
  put "y" (map_dict map_features (col "result") r) r.

(** Lines 57-69 on one row of the frame [X], when every pair of the loop is
    taken. *)
Definition with_diffs (X : DataFrame) (r : Row) : Row :=
  let r := put "d_elo" (diff X "elo_h" "elo_a" r) r in
  let r := put "d_form3" (diff X "form3_h" "form3_a" r) r in
  let r := put "d_form5" (diff X "form5_h" "form5_a" r) r in
  foldl (λ r p, put p.2 (diff X p.1.1 p.1.2 r) r) r pairs.

(** Lines 72-76 before the cast: the column the year is read from, chosen
    once for the whole frame. *)
Definition year_series (X : DataFrame) : Series Row :=
  if any_notna (col "season") X then season_year
  else dt_year_s (col "date").

(** The row of the frame after line 69 that row [i] of the file gives. *)
Definition derived_row (df : RawFrame) (p : nat * RawRow) : Row :=
  with_diffs (encode (normalize df))
    (with_label (new_row (selection df) p.1 p.2)).

(** The frame after line 69 and the frame after line 76. *)
Definition before_year (df : RawFrame) : DataFrame :=
  add_pair_diffs (add_fixed_diffs (encode (normalize df))).

Definition derived (df : RawFrame) : DataFrame :=
  assign "year" (year_series (before_year df)) (before_year df).

(** The row of the frame after line 76 that row [i] of the file gives. *)
Definition final_row (df : RawFrame) (p : nat * RawRow) : Row :=
  put "year" (year_series (before_year df) (derived_row df p))
    (derived_row df p).

(** The rows of the file with their positions, and those that survive. *)
Definition usable_rows (df : RawFrame) : list (nat * RawRow) :=
  filter (λ p, usable p.2) (imap pair (raw_rows df)).

(** The columns of the file each difference column is computed from: the
    renaming of lines 27-42 followed by lines 57-59 and 61-67. *)
Definition diff_sources : list (string * string * string) :=
  [ ("HomeElo", "AwayElo", "d_elo");
    ("Form3Home", "Form3Away", "d_form3");
    ("Form5Home", "Form5Away", "d_form5");
    ("HomeShots", "AwayShots", "d_shots");
    ("HomeTarget", "AwayTarget", "d_sot");
    ("HomeCorners", "AwayCorners", "d_corners");
    ("HomeYellow", "AwayYellow", "d_yc");
    ("HomeRed", "AwayRed", "d_rc") ].

(** The cell [df.get(c)] contributes for a row of the file: the cell of the
    row when the header has the column, nothing otherwise. *)
Definition source_cell (df : RawFrame) (raw : RawRow) (c : string)
    : option string :=
  if bool_decide (c ∈ raw_columns df) then raw !! c else None.

(** The cells [df.get(c)] contributes for the rows that are kept, top to
    bottom. *)
Definition source_column (df : RawFrame) (c : string) : list (option string) :=
  (λ p, source_cell df p.2 c) <$> usable_rows df.

(** [fnum(x) - fnum(y)] on two cells [x] and [y] of columns with the texts
    [xs] and [ys]. *)
Definition diff_cell (xs ys : list (option string)) (x y : option string)
    : value :=
  match x, y with
  | Some a, Some b =>
      match to_numeric xs a, to_numeric ys b with
      | Some u, Some v => from_option Num NA (number_sub u v)
      | _, _ => NA
      end
  | _, _ => NA
  end.

(** The names the script looks up in the file (lines 23-44). *)
Definition source_columns : list string :=
  [ "MatchDate"; "HomeTeam"; "AwayTeam"; "FTResult"; "HomeElo"; "AwayElo";
    "Form3Home"; "Form3Away"; "Form5Home"; "Form5Away"; "HomeShots";
    "AwayShots"; "HomeTarget"; "AwayTarget"; "HomeCorners"; "AwayCorners";
    "HomeYellow"; "AwayYellow"; "HomeRed"; "AwayRed"; "Season"; "Division" ].


End Pipeline.

(** ** Sample files *)

Definition raw_row (l : list (string * string)) : RawRow := list_to_map l.

(** A file with home shots but no away shots, and no other statistics. *)
Definition df_home_shots_only : RawFrame :=
  mkRaw ["MatchDate"; "FTResult"; "HomeTeam"; "AwayTeam"; "HomeShots"]
    [ raw_row [("MatchDate", "2021-08-14"); ("FTResult", "H");
               ("HomeTeam", "Ajax"); ("AwayTeam", "PSV");
               ("HomeShots", "12")];
      raw_row [("MatchDate", "2023-03-05"); ("FTResult", "D");
               ("HomeTeam", "PSV"); ("AwayTeam", "Ajax")] ].

(** A file with ratings and season labels; its rows cover an unparseable
    date, a missing result, a postponed match, a padded result, a lower-case
    result and a season label without a year. *)
Definition df_seasons : RawFrame :=
  mkRaw ["MatchDate"; "FTResult"; "HomeTeam"; "AwayTeam";
         "HomeElo"; "AwayElo"; "Season"]
    [ raw_row [("MatchDate", "2021-08-14"); ("FTResult", "H");
               ("HomeTeam", "Ajax"); ("AwayTeam", "PSV");
               ("HomeElo", "1800"); ("AwayElo", "1750");
               ("Season", "2020/2021")];
      raw_row [("MatchDate", "14 Aug"); ("FTResult", "A");
               ("HomeTeam", "Ajax"); ("AwayTeam", "AZ");
               ("Season", "2021/2022")];
      raw_row [("MatchDate", "2022-09-01");
               ("HomeTeam", "AZ"); ("AwayTeam", "PSV");
               ("Season", "2022/2023")];
      raw_row [("MatchDate", "2022-09-08"); ("FTResult", "P");
               ("HomeTeam", "AZ"); ("AwayTeam", "Ajax");
               ("Season", "2022/2023")];
      raw_row [("MatchDate", "2023-10-01"); ("FTResult", " H");
               ("HomeTeam", "PSV"); ("AwayTeam", "AZ");
               ("Season", "2023/2024")];
      raw_row [("MatchDate", "2024-02-11"); ("FTResult", "d");
               ("HomeTeam", "PSV"); ("AwayTeam", "Ajax");
               ("Season", "2023/2024")];
      raw_row [("MatchDate", "2024-11-02"); ("FTResult", "A");
               ("HomeTeam", "Ajax"); ("AwayTeam", "AZ");
               ("Season", "autumn")];
      raw_row [("MatchDate", "2025-08-16"); ("FTResult", "a");
               ("HomeTeam", "AZ"); ("AwayTeam", "PSV")] ].

(** A file whose only season label sits on a postponed match. *)
Definition df_season_on_dropped_row : RawFrame :=
  mkRaw ["MatchDate"; "FTResult"; "HomeTeam"; "AwayTeam"; "Season"]
    [ raw_row [("MatchDate", "2022-09-08"); ("FTResult", "P");
               ("HomeTeam", "AZ"); ("AwayTeam", "Ajax");
               ("Season", "2019/2020")];
      raw_row [("MatchDate", "2023-10-01"); ("FTResult", "H");
               ("HomeTeam", "PSV"); ("AwayTeam", "AZ")] ].

(** A file without the result and away-team columns. *)
Definition df_no_result : RawFrame :=
  mkRaw ["MatchDate"; "HomeTeam"; "Season"]
    [ raw_row [("MatchDate", "2022-09-08"); ("HomeTeam", "AZ")] ].

(** * Properties *)

(** Deciding a closed decidable statement by evaluation. *)
Ltac by_compute := apply (bool_decide_unpack _); vm_compute; exact I.

Section Properties.
Context `{Pandas}.

(** ** Lists and rows *)

Lemma filter_fmap {A B} (f : A → B) (P : B → Prop) `{!∀ x, Decision (P x)}
    (l : list A) :
  filter P (f <$> l) = f <$> filter (P ∘ f) l.
Proof.
  induction l as [|a l IH]; [done|].
  rewrite fmap_cons, !filter_cons. simpl.
  destruct (decide (P (f a))); rewrite IH; done.
Qed.

Lemma label_put c v r : label (put c v r) = label r.
Proof. done. Qed.

Lemma col_put_eq c v r : col c (put c v r) = v.
Proof. unfold col, put; simpl. by rewrite lookup_insert_eq. Qed.

Lemma col_put_ne c c' v r : c ≠ c' → col c' (put c v r) = col c' r.
Proof. intros. unfold col, put; simpl. by rewrite lookup_insert_ne. Qed.

Lemma cells_put_ne c c' v r : c ≠ c' → cells (put c v r) !! c' = cells r !! c'.
Proof. intros. unfold put; simpl. by rewrite lookup_insert_ne. Qed.

Lemma label_with_diffs X r : label (with_diffs X r) = label r.
Proof. done. Qed.

Lemma col_with_diffs c X r :
  starts_with_d_ c = false → col c (with_diffs X r) = col c r.
Proof.
  intros Hc. unfold with_diffs, pairs; simpl.
  rewrite !col_put_ne; [done|intros <-; discriminate..].
Qed.

Lemma col_with_label c r : c ≠ "y" → col c (with_label r) = col c r.
Proof. intros. unfold with_label. by rewrite col_put_ne. Qed.

Lemma columns_assign_mono c n s X : c ∈ columns X → c ∈ columns (assign n s X).
Proof.
  intros Hc. unfold assign; simpl. case_bool_decide; [done|].
  apply elem_of_app; by left.
Qed.

Lemma rows_assign c s X : rows (assign c s X) = (λ r, put c (s r) r) <$> rows X.
Proof. done. Qed.

Lemma add_pair_diffs_all df :
  add_pair_diffs (add_fixed_diffs (encode (normalize df)))
  = foldl (λ X p, assign p.2 (diff X p.1.1 p.1.2) X)
      (add_fixed_diffs (encode (normalize df))) pairs.
Proof. reflexivity. Qed.

(** Writing a column leaves the texts of the other columns as they are, and
    with them what [fnum] reads there. *)
Lemma texts_assign c n s X : n ≠ c → texts c (assign n s X) = texts c X.
Proof.
  intros Hn. unfold texts. rewrite rows_assign, <- list_fmap_compose.
  apply list_fmap_ext. intros i r _. cbn. by rewrite col_put_ne.
Qed.

Lemma diff_assign h a n s X :
  n ≠ h → n ≠ a → diff (assign n s X) h a = diff X h a.
Proof.
  intros Hh Ha. unfold diff, fnum. by rewrite !texts_assign.
Qed.

Lemma rows_derived df :
  rows (add_pair_diffs (add_fixed_diffs (encode (normalize df))))
  = with_diffs (encode (normalize df)) <$> rows (encode (normalize df)).
Proof.
  rewrite add_pair_diffs_all.
  generalize (encode (normalize df)). intros X.
  unfold pairs, add_fixed_diffs. cbn [foldl fst snd].
  rewrite !rows_assign.
  repeat (rewrite diff_assign by done).
  rewrite <- !list_fmap_compose. done.
Qed.

Lemma pairs_from_file df :
  imap (new_row (selection df)) (raw_rows df)
  = (λ p, new_row (selection df) p.1 p.2) <$> imap pair (raw_rows df).
Proof. rewrite fmap_imap. by apply imap_ext. Qed.

Lemma to_datetime_s_notna {R} (s : Series R) r :
  notna (to_datetime_s s r) = true → ∃ t, to_datetime_s s r = Date t.
Proof.
  unfold to_datetime_s. destruct (s r) as [|x| | |]; simpl; try done; [|eauto].
  destruct (to_datetime x); simpl; [eauto|done].
Qed.

Lemma map_dict_notna {R} d (s : Series R) r :
  notna (map_dict d s r) = true → notna (s r) = true.
Proof. unfold map_dict. by destruct (s r). Qed.

Lemma usable_filters df p :
  complete ["y"] (with_label (new_row (selection df) p.1 p.2))
  ∧ complete ["date"; "result"] (new_row (selection df) p.1 p.2)
  ↔ usable p.2.
Proof.
  destruct p as [i raw]. cbn [fst snd].
  unfold complete, usable, with_label. cbn [forallb]. rewrite col_put_eq.
  change (col "date" (new_row (selection df) i raw)) with (date_of raw).
  change (col "result" (new_row (selection df) i raw)) with (result_of raw).
  change (map_dict map_features (col "result") (new_row (selection df) i raw))
    with (label_of raw).
  rewrite !andb_True, !Is_true_true.
  split.
  - intros [[? _] [? _]]. done.
  - intros [? Hl]. split_and!; try done.
    by apply map_dict_notna in Hl.
Qed.

Lemma rows_labelled df :
  rows (encode (normalize df))
  = (λ p, with_label (new_row (selection df) p.1 p.2))
      <$> filter (λ p, usable p.2) (imap pair (raw_rows df)).
Proof.
  unfold encode, normalize, dropna, new_frame, assign. cbn [rows columns].
  rewrite pairs_from_file, !filter_fmap, <- list_fmap_compose.
  rewrite list_filter_filter. f_equal.
  apply list_filter_iff. intros p. apply usable_filters.
Qed.

Lemma rows_before_year df :
  rows (before_year df) = derived_row df <$> usable_rows df.
Proof.
  unfold before_year, usable_rows.
  by rewrite rows_derived, rows_labelled, <- list_fmap_compose.
Qed.

Lemma col_derived_row c df p :
  starts_with_d_ c = false → c ≠ "y" →
  col c (derived_row df p) = col c (new_row (selection df) p.1 p.2).
Proof.
  intros Hd Hy. unfold derived_row.
  by rewrite col_with_diffs, col_with_label.
Qed.

Lemma date_derived_row df p : col "date" (derived_row df p) = date_of p.2.
Proof. by rewrite col_derived_row. Qed.

Lemma season_derived_row df p :
  col "season" (derived_row df p)
  = from_option (λ s, s p.2) NA (get df "Season").
Proof. by rewrite col_derived_row. Qed.

Lemma y_derived_row df p : col "y" (derived_row df p) = label_of p.2.
Proof.
  unfold derived_row. rewrite col_with_diffs by done.
  unfold with_label. by rewrite col_put_eq.
Qed.

Lemma elem_of_usable_rows df p :
  p ∈ usable_rows df ↔ raw_rows df !! p.1 = Some p.2 ∧ usable p.2 = true.
Proof.
  unfold usable_rows. rewrite list_elem_of_filter, elem_of_lookup_imap.
  rewrite Is_true_true. split.
  - intros [Hu (i & raw & -> & Hi)]. done.
  - intros [Hi Hu]. split; [done|]. exists p.1, p.2. by destruct p.
Qed.

Lemma usable_date raw : usable raw = true → ∃ t, date_of raw = Date t.
Proof.
  unfold usable. intros [Hd _]%andb_prop.
  by apply to_datetime_s_notna.
Qed.

Lemma year_series_notna df p :
  usable p.2 = true →
  notna (year_series (before_year df) (derived_row df p)) = true.
Proof.
  intros [t Ht]%usable_date. unfold year_series.
  destruct (any_notna _ _).
  - unfold season_year, fillna.
    destruct (to_numeric_digits _ _) eqn:E; try done.
    unfold dt_year_s. by rewrite date_derived_row, Ht.
  - unfold dt_year_s. by rewrite date_derived_row, Ht.
Qed.

Lemma add_year_ok df : add_year (before_year df) = Ok (derived df).
Proof.
  assert (forallb (λ r, notna (year_series (before_year df) r))
            (rows (before_year df)) = true) as Hall.
  { apply forallb_forall. intros r Hr%list_elem_of_In.
    rewrite rows_before_year in Hr.
    apply list_elem_of_fmap in Hr as (p & -> & Hp).
    apply elem_of_usable_rows in Hp as [_ Hu].
    by apply year_series_notna. }
  unfold add_year, derived, year_series in *. unfold assign_int.
  destruct (any_notna _ _); by rewrite Hall.
Qed.

Lemma pipeline_ok df :
  missing df = [] → pipeline df = Ok (split_and_report (derived df)).
Proof.
  intros Hm. unfold pipeline. rewrite bool_decide_eq_false_2 by (by rewrite Hm; intros ?).
  fold (before_year df). by rewrite add_year_ok.
Qed.

Lemma pipeline_inv df rep :
  pipeline df = Ok rep →
  missing df = [] ∧ rep = split_and_report (derived df).
Proof.
  intros Hp. destruct (decide (missing df = [])) as [Hm|Hm].
  - rewrite pipeline_ok in Hp by done. by inversion Hp.
  - unfold pipeline in Hp. by rewrite bool_decide_eq_true_2 in Hp.
Qed.

Lemma rows_derived_frame df : rows (derived df) = final_row df <$> usable_rows df.
Proof.
  unfold derived. rewrite rows_assign, rows_before_year, <- list_fmap_compose.
  done.
Qed.

Lemma elem_of_derived df r :
  r ∈ rows (derived df) ↔
  ∃ i raw, raw_rows df !! i = Some raw ∧ usable raw = true
           ∧ r = final_row df (i, raw).
Proof.
  rewrite rows_derived_frame, list_elem_of_fmap. split.
  - intros ([i raw] & -> & [??]%elem_of_usable_rows). eauto.
  - intros (i & raw & ? & ? & ->). exists (i, raw). split; [done|].
    by apply elem_of_usable_rows.
Qed.

Lemma label_final_row df p : label (final_row df p) = p.1.
Proof. done. Qed.

Lemma index_derived df : index (derived df) = (usable_rows df).*1.
Proof.
  unfold index. rewrite rows_derived_frame, <- list_fmap_compose. done.
Qed.


(** ** Text *)

Lemma upper_length s : String.length (upper s) = String.length s.
Proof. induction s as [|c s IH]; simpl; congruence. Qed.

Lemma upper_single s c :
  upper s = String c EmptyString →
  ∃ c0, s = String c0 EmptyString ∧ upper_char c0 = c.
Proof.
  destruct s as [|c0 [|c1 s]]; simpl; intros Hs; try discriminate.
  inversion Hs. eauto.
Qed.

Ltac by_char_cases c :=
  destruct c as [[] [] [] [] [] [] [] []]; vm_compute;
  first [ discriminate | intros _; tauto ].

Lemma upper_char_A c : upper_char c = "A"%char → c = "A"%char ∨ c = "a"%char.
Proof. by_char_cases c. Qed.

Lemma upper_char_D c : upper_char c = "D"%char → c = "D"%char ∨ c = "d"%char.
Proof. by_char_cases c. Qed.

Lemma upper_char_H c : upper_char c = "H"%char → c = "H"%char ∨ c = "h"%char.
Proof. by_char_cases c. Qed.

Lemma upper_A s : upper s = "A" ↔ s = "A" ∨ s = "a".
Proof.
  split; [|by intros [-> | ->]].
  intros (c & -> & [-> | ->]%upper_char_A)%upper_single; auto.
Qed.

Lemma upper_D s : upper s = "D" ↔ s = "D" ∨ s = "d".
Proof.
  split; [|by intros [-> | ->]].
  intros (c & -> & [-> | ->]%upper_char_D)%upper_single; auto.
Qed.

Lemma upper_H s : upper s = "H" ↔ s = "H" ∨ s = "h".
Proof.
  split; [|by intros [-> | ->]].
  intros (c & -> & [-> | ->]%upper_char_H)%upper_single; auto.
Qed.

Lemma map_features_Some s z :
  map_features !! s = Some z ↔
  (s = "A" ∧ z = 1) ∨ (s = "D" ∧ z = 2) ∨ (s = "H" ∧ z = 3).
Proof.
  unfold map_features. rewrite !lookup_insert_Some, lookup_empty. split.
  - intros [[<- <-]|[? [[<- <-]|[? [[<- <-]|[? ?]]]]]]; auto. done.
  - intros [[-> ->]|[[-> ->]|[-> ->]]];
      [left | right; split; [done|left]
       | right; split; [done|right; split; [done|left]]]; done.
Qed.

Lemma map_features_single s :
  is_Some (map_features !! s) → String.length s = 1%nat.
Proof.
  intros [z Hz]. apply map_features_Some in Hz.
  by destruct Hz as [[-> _] | [[-> _] | [-> _]]].
Qed.

(** The label of a row of the file, read off its result cell. *)
Lemma label_of_cell raw :
  label_of raw =
  match raw !! "FTResult" with
  | Some s => from_option Int NA (map_features !! upper s)
  | None => NA
  end.
Proof.
  unfold label_of, result_of, map_dict, str_upper, astype_str, getitem.
  destruct (raw !! "FTResult") as [s|]; simpl; [done|].
  by destruct str_keeps_na.
Qed.

Lemma label_of_Int raw z :
  label_of raw = Int z ↔
  ∃ s, raw !! "FTResult" = Some s ∧
       (((s = "A" ∨ s = "a") ∧ z = 1) ∨ ((s = "D" ∨ s = "d") ∧ z = 2)
        ∨ ((s = "H" ∨ s = "h") ∧ z = 3)).
Proof.
  rewrite label_of_cell. split.
  - destruct (raw !! "FTResult") as [s|]; [|done].
    destruct (map_features !! upper s) as [z'|] eqn:E; simpl; [|done].
    intros [= ->]. exists s. split; [done|].
    apply map_features_Some in E.
    rewrite !upper_A, !upper_D, !upper_H in E. tauto.
  - intros (s & -> & Hs).
    assert (map_features !! upper s = Some z) as ->; [|done].
    apply map_features_Some. rewrite !upper_A, !upper_D, !upper_H. tauto.
Qed.

Lemma label_of_notna raw :
  notna (label_of raw) = true → ∃ z, label_of raw = Int z.
Proof.
  rewrite label_of_cell. destruct (raw !! "FTResult") as [s|]; [|done].
  destruct (map_features !! upper s); simpl; [eauto|done].
Qed.

Lemma usable_label raw : usable raw = true → ∃ z, label_of raw = Int z.
Proof.
  unfold usable. intros [_ Hl]%andb_prop. by apply label_of_notna.
Qed.

Lemma usable_iff raw :
  usable raw = true ↔ (∃ t, date_of raw = Date t) ∧ (∃ z, label_of raw = Int z).
Proof.
  split.
  - intros Hu. split; [by apply usable_date | by apply usable_label].
  - intros [[t Ht] [z Hz]]. unfold usable. by rewrite Ht, Hz.
Qed.

(** ** Rows of the frames *)

Lemma col_final_row_year df p :
  col "year" (final_row df p)
  = year_series (before_year df) (derived_row df p).
Proof. unfold final_row. by rewrite col_put_eq. Qed.

Lemma col_final_row c df p :
  c ≠ "year" → col c (final_row df p) = col c (derived_row df p).
Proof. intros. unfold final_row. by rewrite col_put_ne. Qed.

Lemma cells_final_row c df p :
  c ≠ "year" → cells (final_row df p) !! c = cells (derived_row df p) !! c.
Proof. intros. unfold final_row. by rewrite cells_put_ne. Qed.

Lemma any_notna_assign c c' s X :
  c ≠ c' → any_notna (col c') (assign c s X) = any_notna (col c') X.
Proof.
  intros Hc. unfold any_notna. rewrite rows_assign.
  induction (rows X) as [|r l IH]; [done|].
  rewrite fmap_cons. cbn [existsb]. by rewrite IH, col_put_ne.
Qed.

Lemma any_notna_derived df :
  any_notna (col "season") (derived df)
  = any_notna (col "season") (before_year df).
Proof. unfold derived. by rewrite any_notna_assign. Qed.

Lemma any_notna_true s X :
  any_notna s X = true ↔ ∃ r, r ∈ rows X ∧ notna (s r) = true.
Proof.
  unfold any_notna. rewrite existsb_exists.
  by setoid_rewrite list_elem_of_In.
Qed.

(** The year a row receives, spelled out on its season and date cells. *)
Lemma year_series_value X r t :
  col "date" r = Date t →
  year_series X r =
  Int (if any_notna (col "season") X then
         match col "season" r with
         | Str s => match extract_4digits s with
                    | Some m => digits_value m
                    | None => dt_year t
                    end
         | _ => dt_year t
         end
       else dt_year t).
Proof.
  intros Ht. unfold year_series.
  destruct (any_notna _ _); [|unfold dt_year_s; by rewrite Ht].
  unfold season_year, fillna, to_numeric_digits, str_extract_4digits,
    astype_str, dt_year_s.
  rewrite Ht. destruct (col "season" r) as [|s| | |]; try done.
  - by destruct str_keeps_na.
  - by destruct (extract_4digits s).
Qed.

Lemma elem_of_normalize df r :
  r ∈ rows (normalize df) ↔
  ∃ i raw, raw_rows df !! i = Some raw ∧ r = new_row (selection df) i raw
           ∧ notna (date_of raw) = true ∧ notna (result_of raw) = true.
Proof.
  unfold normalize, dropna, new_frame. cbn [rows].
  rewrite list_elem_of_filter, elem_of_lookup_imap.
  unfold complete. cbn [forallb]. rewrite !andb_True, !Is_true_true.
  split.
  - intros [(Hd & Hr & _) (i & raw & -> & Hi)]. exists i, raw. done.
  - intros (i & raw & Hi & -> & Hd & Hr). split; [done|]. eauto.
Qed.

Lemma elem_of_labelled df r :
  r ∈ rows (encode (normalize df)) ↔
  ∃ i raw, raw_rows df !! i = Some raw ∧ usable raw = true
           ∧ r = with_label (new_row (selection df) i raw).
Proof.
  rewrite rows_labelled, list_elem_of_fmap. split.
  - intros ([i raw] & -> & [??]%elem_of_usable_rows). eauto.
  - intros (i & raw & ? & ? & ->). exists (i, raw). split; [done|].
    by apply elem_of_usable_rows.
Qed.

Lemma date_of_NA raw :
  date_of raw = NA ↔
  raw !! "MatchDate" = None
  ∨ ∃ s, raw !! "MatchDate" = Some s ∧ to_datetime s = None.
Proof.
  unfold date_of, to_datetime_s, getitem.
  destruct (raw !! "MatchDate") as [s|]; simpl.
  - destruct (to_datetime s) eqn:E; simpl; split; try done.
    + intros [?|(s' & [= <-] & ?)]; congruence.
    + intros _. right. eauto.
  - split; auto.
Qed.

Lemma result_of_Str raw :
  notna (result_of raw) = true → ∃ s, result_of raw = Str s.
Proof.
  unfold result_of, str_upper. destruct (astype_str _ _); try done. eauto.
Qed.

(** ** Rows without a date or a result *)

(** A row of the file whose date is missing or does not parse is not in the
    frame normalization returns; a row whose result is missing is not in the
    frame the difference features are computed on, and not in the frame
    normalization returns when the string dtype keeps missing values; every
    row retained by normalization has a parsed date and a result text, and
    every row that reaches the difference features has a result in the
    file. *)
Lemma rows_without_date_or_result_dropped df :
  (∀ i raw, raw_rows df !! i = Some raw →
     (raw !! "MatchDate" = None
      ∨ ∃ s, raw !! "MatchDate" = Some s ∧ to_datetime s = None) →
     i ∉ index (normalize df))
  ∧ (∀ i raw, raw_rows df !! i = Some raw → raw !! "FTResult" = None →
       (i ∉ index (encode (normalize df)))
       ∧ (str_keeps_na = true → i ∉ index (normalize df)))
  ∧ (∀ r, r ∈ rows (normalize df) →
       (∃ t, col "date" r = Date t) ∧ (∃ s, col "result" r = Str s))
  ∧ (∀ r, r ∈ rows (encode (normalize df)) →
       ∃ raw s t, raw_rows df !! label r = Some raw
                  ∧ raw !! "FTResult" = Some s
                  ∧ raw !! "MatchDate" = Some t
                  ∧ is_Some (to_datetime t)).
Proof.
  unfold index. split_and!.
  - intros i raw Hi Hd%date_of_NA (r & -> & Hr)%list_elem_of_fmap.
    apply elem_of_normalize in Hr as (j & raw' & Hj & -> & Hn & _).
    cbn [label new_row] in Hi. rewrite Hi in Hj. injection Hj as <-.
    by rewrite Hd in Hn.
  - intros i raw Hi Hr. split.
    + intros (r & -> & Hin)%list_elem_of_fmap.
      apply elem_of_labelled in Hin as (j & raw' & Hj & Hu & ->).
      cbn [label with_label put new_row] in Hi.
      rewrite Hi in Hj. injection Hj as <-.
      apply usable_label in Hu as [z Hz].
      rewrite label_of_cell, Hr in Hz. done.
    + intros Hk (r & -> & Hin)%list_elem_of_fmap.
      apply elem_of_normalize in Hin as (j & raw' & Hj & -> & _ & Hn).
      cbn [label new_row] in Hi. rewrite Hi in Hj. injection Hj as <-.
      unfold result_of, str_upper, astype_str, getitem in Hn.
      rewrite Hr, Hk in Hn. done.
  - intros r (i & raw & Hi & -> & Hd & Hr)%elem_of_normalize. split.
    + by apply to_datetime_s_notna in Hd.
    + by apply result_of_Str in Hr.
  - intros r (i & raw & Hi & Hu & ->)%elem_of_labelled.
    cbn [label with_label put new_row].
    apply usable_iff in Hu as [[t Ht] [z Hz]].
    apply label_of_Int in Hz as (s & Hs & _).
    unfold date_of, to_datetime_s, getitem in Ht.
    destruct (raw !! "MatchDate") as [d|] eqn:Ed; [|done].
    exists raw, s, d. split_and!; try done.
    simpl in Ht. by destruct (to_datetime d).
Qed.

Lemma label_project cols r : label (project cols r) = label r.
Proof. done. Qed.

Lemma cells_project cols r c :
  cells (project cols r) !! c
  = if bool_decide (c ∈ cols) then cells r !! c else None.
Proof.
  unfold project. cbn [cells]. rewrite map_lookup_filter.
  destruct (cells r !! c) as [v|]; simpl; [|by case_bool_decide].
  case_bool_decide.
  - by rewrite option_guard_True.
  - by rewrite option_guard_False.
Qed.

Lemma col_project cols r c :
  c ∈ cols → col c (project cols r) = col c r.
Proof.
  intros Hc. unfold col. rewrite cells_project.
  by rewrite bool_decide_eq_true_2.
Qed.

Lemma columns_derived df :
  columns (derived df) =
  ["date"; "home"; "away"; "result"; "elo_h"; "elo_a"; "form3_h";
   "form3_a"; "form5_h"; "form5_a"; "shots_h"; "shots_a"; "sot_h";
   "sot_a"; "corners_h"; "corners_a"; "yc_h"; "yc_a"; "rc_h"; "rc_a";
   "season"; "league"; "y"; "d_elo"; "d_form3"; "d_form5"; "d_shots";
   "d_sot"; "d_corners"; "d_yc"; "d_rc"; "year"].
Proof. reflexivity. Qed.

Lemma out_cols_derived df :
  out_cols_of (derived df) =
  ["date"; "home"; "away"; "y"; "year"; "d_elo"; "d_form3"; "d_form5";
   "d_shots"; "d_sot"; "d_corners"; "d_yc"; "d_rc"].
Proof. unfold out_cols_of, feature_cols_of. by rewrite columns_derived. Qed.

Lemma rows_where p X : rows (where_ p X) = filter (λ r, p r) (rows X).
Proof. done. Qed.

Lemma elem_of_where p X r : r ∈ rows (where_ p X) ↔ p r = true ∧ r ∈ rows X.
Proof. by rewrite rows_where, list_elem_of_filter, Is_true_true. Qed.

Lemma index_where p X i : i ∈ index (where_ p X) → i ∈ index X.
Proof.
  unfold index. intros (r & -> & [_ Hr]%elem_of_where)%list_elem_of_fmap.
  apply list_elem_of_fmap. eauto.
Qed.

Lemma index_select cols X : index (select cols X) = index X.
Proof. unfold index, select. cbn [rows]. by rewrite <- list_fmap_compose. Qed.

Lemma elem_of_index_derived df i :
  i ∈ index (derived df) ↔
  ∃ raw, raw_rows df !! i = Some raw ∧ usable raw = true.
Proof.
  rewrite index_derived, list_elem_of_fmap. split.
  - intros ([j raw] & -> & [??]%elem_of_usable_rows). eauto.
  - intros (raw & ? & ?). exists (i, raw). split; [done|].
    by apply elem_of_usable_rows.
Qed.

Lemma index_pairs (l : list RawRow) : (imap pair l).*1 = seq 0 (length l).
Proof.
  rewrite fmap_imap, <- (list_fmap_id (seq 0 (length l))), <- imap_seq_0.
  by apply imap_ext.
Qed.

Lemma NoDup_index_derived df : NoDup (index (derived df)).
Proof.
  rewrite index_derived. unfold usable_rows.
  assert ((filter (λ p, usable p.2) (imap pair (raw_rows df))).*1
          `sublist_of` seq 0 (length (raw_rows df))) as Hsub.
  { rewrite <- index_pairs. apply fmap_sublist, sublist_filter. }
  revert Hsub. apply sublist_NoDup, NoDup_seq.
Qed.

Lemma elem_of_written df r :
  r ∈ rows (written (split_and_report (derived df))) ↔
  ∃ i raw, raw_rows df !! i = Some raw ∧ usable raw = true
           ∧ r = project (out_cols_of (derived df)) (final_row df (i, raw)).
Proof.
  cbn [written split_and_report select rows].
  rewrite list_elem_of_fmap. split.
  - intros (r0 & -> & (i & raw & ? & ? & ->)%elem_of_derived). eauto.
  - intros (i & raw & ? & ? & ->). eexists. split; [done|].
    apply elem_of_derived. eauto.
Qed.

(** ** The label *)

(** C3: every row of the written table has a label in 1..3, which is 1, 2
    or 3 exactly when the result cell of its row in the file is A, D or H in
    either case; a row whose result is missing or upper-cases to anything
    else is in none of the frames a run produces; and a row whose date
    parses and whose result is A, D or H in either case is written with the
    label 1, 2 or 3. *)
Theorem C3_label_mapping df rep :
  pipeline df = Ok rep →
  (∀ r, r ∈ rows (written rep) →
     ∃ raw s, raw_rows df !! label r = Some raw ∧ raw !! "FTResult" = Some s
       ∧ (((s = "A" ∨ s = "a") ∧ col "y" r = Int 1)
          ∨ ((s = "D" ∨ s = "d") ∧ col "y" r = Int 2)
          ∨ ((s = "H" ∨ s = "h") ∧ col "y" r = Int 3)))
  ∧ (∀ i raw, raw_rows df !! i = Some raw →
       (∀ s, raw !! "FTResult" = Some s →
          upper s ≠ "A" ∧ upper s ≠ "D" ∧ upper s ≠ "H") →
       (i ∉ index (X_final rep)) ∧ (i ∉ index (written rep))
       ∧ (i ∉ index (train rep)) ∧ (i ∉ index (validation rep))
       ∧ (i ∉ index (test rep)))
  ∧ (∀ i raw s z, raw_rows df !! i = Some raw →
       raw !! "FTResult" = Some s →
       (∃ d t, raw !! "MatchDate" = Some d ∧ to_datetime d = Some t) →
       ((s = "A" ∨ s = "a") ∧ z = 1) ∨ ((s = "D" ∨ s = "d") ∧ z = 2)
       ∨ ((s = "H" ∨ s = "h") ∧ z = 3) →
       ∃ r, r ∈ rows (written rep) ∧ label r = i ∧ col "y" r = Int z).
Proof.
  intros [_ ->]%pipeline_inv. split; [|split].
  - intros r (i & raw & Hi & Hu & ->)%elem_of_written.
    rewrite label_project, label_final_row. cbn [fst].
    apply usable_label in Hu as [z Hz].
    assert (col "y" (project (out_cols_of (derived df)) (final_row df (i, raw)))
            = Int z) as ->.
    { rewrite col_project by (rewrite out_cols_derived; set_solver).
      by rewrite col_final_row, y_derived_row. }
    apply label_of_Int in Hz as (s & Hs & Hz). exists raw, s.
    split_and!; try done.
    destruct Hz as [[? ->]|[[? ->]|[? ->]]]; auto.
  - intros i raw Hi Hno.
    assert (i ∉ index (derived df)) as Hout.
    { intros (raw' & Hi' & Hu)%elem_of_index_derived.
      rewrite Hi in Hi'. injection Hi' as <-.
      apply usable_label in Hu as [z (s & Hs & Hz)%label_of_Int].
      destruct (Hno s Hs) as (HA & HD & HH).
      rewrite upper_A in HA. rewrite upper_D in HD. rewrite upper_H in HH.
      tauto. }
    cbn [X_final written train validation test split_and_report].
    rewrite index_select.
    split_and!; try done; by intros ?%index_where.
  - intros i raw s z Hi Hs (d & t & Hd & Ht) Hz.
    assert (label_of raw = Int z) as Hl by (apply label_of_Int; eauto).
    assert (date_of raw = Date t) as Hdate.
    { unfold date_of, to_datetime_s, getitem. rewrite Hd. cbn [from_option].
      by rewrite Ht. }
    assert (usable raw = true) as Hu by (apply usable_iff; eauto).
    exists (project (out_cols_of (derived df)) (final_row df (i, raw))).
    split; [apply elem_of_written; eauto|]. split; [done|].
    rewrite col_project by (rewrite out_cols_derived; by_compute).
    by rewrite col_final_row, y_derived_row.
Qed.

(** ** The partition year *)

Lemma season_cell df raw :
  from_option (λ s : Series RawRow, s raw) NA (get df "Season")
  = if bool_decide ("Season" ∈ raw_columns df)
    then from_option Str NA (raw !! "Season") else NA.
Proof. unfold get. by case_bool_decide. Qed.

(** On a file with the required columns the run succeeds, and the year of
    every retained row is given by the computation of lines 72-76 on its
    season and date cells. *)
Lemma partition_year_formula df :
  missing df = [] →
  ∃ rep, pipeline df = Ok rep ∧
    ∀ r, r ∈ rows (X_final rep) →
      ∃ raw t,
        raw_rows df !! label r = Some raw
        ∧ date_of raw = Date t
        ∧ col "date" r = Date t
        ∧ col "season" r
          = (if bool_decide ("Season" ∈ raw_columns df)
             then from_option Str NA (raw !! "Season") else NA)
        ∧ col "year" r
          = Int (if any_notna (col "season") (X_final rep) then
                   match col "season" r with
                   | Str s => match extract_4digits s with
                              | Some m => digits_value m
                              | None => dt_year t
                              end
                   | _ => dt_year t
                   end
                 else dt_year t).
Proof.
  intros Hm. exists (split_and_report (derived df)).
  split; [by apply pipeline_ok|].
  cbn [X_final split_and_report].
  intros r (i & raw & Hi & Hu & ->)%elem_of_derived.
  destruct (usable_date _ Hu) as [t Ht].
  exists raw, t. rewrite label_final_row. cbn [fst].
  rewrite (col_final_row "date"), (col_final_row "season") by done.
  rewrite col_final_row_year.
  rewrite date_derived_row, season_derived_row, any_notna_derived.
  cbn [snd]. split_and!; try done.
  - apply season_cell.
  - rewrite (year_series_value _ _ t) by (by rewrite date_derived_row).
    by rewrite season_derived_row.
Qed.

(** ** The three splits *)

Lemma year_le_true y r :
  year_le y r = true ↔ ∃ z, col "year" r = Int z ∧ z ≤ y.
Proof.
  unfold year_le. destruct (col "year" r) as [| |z| |];
    try (split; [done|by intros (? & ? & ?)]).
  rewrite Z.leb_le. split; [eauto|]. by intros (? & [= <-] & ?).
Qed.

Lemma year_eq_true y r :
  year_eq y r = true ↔ col "year" r = Int y.
Proof.
  unfold year_eq. destruct (col "year" r) as [| |z| |]; try done.
  rewrite Z.eqb_eq. split; [by intros ->|by intros [= ->]].
Qed.

(** C5: train, validation and test hold the retained rows whose year is at
    most 2022, equal to 2023 and equal to 2024; no row is in two of them;
    together they are the retained rows with a year of at most 2024; a
    retained row with a later year is in none. *)
Theorem C5_splits_partition df rep :
  pipeline df = Ok rep →
  let X := X_final rep in
  (∀ r, r ∈ rows (train rep) ↔
        r ∈ rows X ∧ ∃ z, col "year" r = Int z ∧ z ≤ 2022)
  ∧ (∀ r, r ∈ rows (validation rep) ↔
          r ∈ rows X ∧ col "year" r = Int 2023)
  ∧ (∀ r, r ∈ rows (test rep) ↔ r ∈ rows X ∧ col "year" r = Int 2024)
  ∧ (∀ r, ¬ (r ∈ rows (train rep) ∧ r ∈ rows (validation rep)))
  ∧ (∀ r, ¬ (r ∈ rows (train rep) ∧ r ∈ rows (test rep)))
  ∧ (∀ r, ¬ (r ∈ rows (validation rep) ∧ r ∈ rows (test rep)))
  ∧ (∀ r, r ∈ rows (train rep) ∨ r ∈ rows (validation rep)
          ∨ r ∈ rows (test rep) ↔
          r ∈ rows X ∧ ∃ z, col "year" r = Int z ∧ z ≤ 2024)
  ∧ (∀ r z, r ∈ rows X → col "year" r = Int z → 2024 < z →
       (r ∉ rows (train rep)) ∧ (r ∉ rows (validation rep))
       ∧ (r ∉ rows (test rep)))
  ∧ (∀ r, r ∈ rows X → ∃ z, col "year" r = Int z).
Proof.
  intros [_ ->]%pipeline_inv.
  cbn [X_final train validation test split_and_report]. cbn zeta.
  assert (∀ r, r ∈ rows (where_ (year_le 2022) (derived df)) ↔
               r ∈ rows (derived df) ∧ ∃ z, col "year" r = Int z ∧ z ≤ 2022)
    as Htrain.
  { intros r. rewrite elem_of_where, year_le_true. tauto. }
  assert (∀ y r, r ∈ rows (where_ (year_eq y) (derived df)) ↔
               r ∈ rows (derived df) ∧ col "year" r = Int y) as Heq.
  { intros y r. rewrite elem_of_where, year_eq_true. tauto. }
  split_and!.
  - done.
  - intros r. apply Heq.
  - intros r. apply Heq.
  - intros r [(_ & z & Hz & ?)%Htrain [_ Hv]%Heq]. rewrite Hz in Hv.
    injection Hv as ->. lia.
  - intros r [(_ & z & Hz & ?)%Htrain [_ Hv]%Heq]. rewrite Hz in Hv.
    injection Hv as ->. lia.
  - intros r [[_ Hv]%Heq [_ Ht]%Heq]. rewrite Hv in Ht. done.
  - intros r. rewrite Htrain, !Heq. split.
    + intros [(? & z & ? & ?)|[[? ?]|[? ?]]]; split; try done;
        [exists z|exists 2023|exists 2024]; split; try done; lia.
    + intros (Hr & z & Hz & Hle).
      destruct (decide (z ≤ 2022)); [left; eauto|].
      destruct (decide (z = 2023)) as [->|]; [right; left; done|].
      assert (z = 2024) as -> by lia. right; right; done.
  - intros r z Hr Hz Hlt. rewrite Htrain, !Heq, Hz. split_and!.
    + intros (_ & z' & [= <-] & ?). lia.
    + intros [_ [= ->]]. lia.
    + intros [_ [= ->]]. lia.
  - intros r (i & raw & Hi & Hu & ->)%elem_of_derived.
    destruct (usable_date _ Hu) as [t Ht].
    rewrite col_final_row_year.
    rewrite (year_series_value _ _ t) by (by rewrite date_derived_row).
    eauto.
Qed.

(** ** The written table *)


(** ** Errors *)

Lemma elem_of_missing df c :
  c ∈ missing df ↔ c ∈ must_have ∧ c ∉ raw_columns df.
Proof. unfold missing. rewrite list_elem_of_filter. tauto. Qed.

Lemma missing_nil df :
  missing df = [] ↔ ∀ c, c ∈ must_have → c ∈ raw_columns df.
Proof.
  split.
  - intros Hm c Hc. destruct (decide (c ∈ raw_columns df)) as [|Hn]; [done|].
    assert (c ∈ missing df) as Hin by (by apply elem_of_missing).
    rewrite Hm in Hin. by apply elem_of_nil in Hin.
  - intros Hall. destruct (missing df) as [|c l] eqn:E; [done|].
    assert (c ∈ missing df) as [Hc Hn]%elem_of_missing
      by (rewrite E; apply list_elem_of_here).
    by apply Hall in Hc.
Qed.

Lemma pipeline_missing df :
  missing df ≠ [] →
  pipeline df = Raise (RuntimeError
    ("MATCHES.csv missing required columns: " +:+ repr_list (missing df))).
Proof. intros Hm. unfold pipeline. by rewrite bool_decide_eq_true_2. Qed.

(** C7: when the input file does not exist the run raises FileNotFoundError
    (the missing-input error) with a message that contains the expected path
    and the instruction to clone the dataset; when the file lacks a required
    column it raises RuntimeError (the schema error) with the list of the
    required columns that are absent, in the order of [must_have]; when
    the file has the four required columns the run returns a report. *)
Theorem C7_errors w :
  (matches_csv w = None →
     ∃ msg, (main w).1 = Raise (FileNotFoundError msg)
       ∧ msg = "Missing external/Club-Football-Match-Data-2000-2025/data/MATCHES.csv. Clone the dataset into external/."
       ∧ contains MATCHES_CSV msg = true
       ∧ contains "Clone the dataset into external/" msg = true)
  ∧ (∀ df, matches_csv w = Some df →
       (∃ c, c ∈ must_have ∧ c ∉ raw_columns df) →
       (main w).1 = Raise (RuntimeError
         ("MATCHES.csv missing required columns: "
          +:+ repr_list (missing df)))
       ∧ (∀ c, c ∈ missing df ↔ c ∈ must_have ∧ c ∉ raw_columns df)
       ∧ missing df `sublist_of` must_have)
  ∧ (∀ df, matches_csv w = Some df →
       (∀ c, c ∈ must_have → c ∈ raw_columns df) →
       ∃ rep, (main w).1 = Ok rep).
Proof.
  split_and!.
  - intros Hw. unfold main. rewrite Hw. eexists. split; [done|].
    split; [done|]. split; vm_compute; done.
  - intros df Hw (c & Hc & Hn). unfold main. rewrite Hw.
    assert (missing df ≠ []) as Hm.
    { intros Hm. rewrite missing_nil in Hm. by apply Hn, Hm. }
    rewrite pipeline_missing by done. split_and!; [done| |].
    + apply elem_of_missing.
    + apply sublist_filter.
  - intros df Hw Hall%missing_nil. unfold main. rewrite Hw.
    rewrite pipeline_ok by done. eauto.
Qed.

(** ** Results with surrounding whitespace *)

Lemma lstrip_length s :
  (String.length (lstrip s) ≤ String.length s)%nat
  ∧ (lstrip s ≠ s → (String.length (lstrip s) < String.length s)%nat).
Proof.
  induction s as [|c s [IH1 IH2]]; simpl; [split; [lia|done]|].
  destruct (is_space c); simpl; split; try lia; done.
Qed.

Lemma rstrip_length s :
  (String.length (rstrip s) ≤ String.length s)%nat
  ∧ (rstrip s ≠ s → (String.length (rstrip s) < String.length s)%nat).
Proof.
  induction s as [|c s [IH1 IH2]]; simpl; [split; [lia|done]|].
  destruct (rstrip s) as [|c' t'] eqn:E.
  - destruct (is_space c); simpl; split; try lia.
    intros Hne. destruct s; [done|simpl; lia].
  - simpl in *. split; [lia|]. intros Hne.
    assert (String c' t' ≠ s) as Hs by congruence.
    apply IH2 in Hs. lia.
Qed.

Lemma strip_shorter s :
  strip s ≠ s → (String.length (strip s) < String.length s)%nat.
Proof.
  unfold strip. intros Hne.
  destruct (lstrip_length (rstrip s)) as [Hl1 Hl2].
  destruct (rstrip_length s) as [Hr1 Hr2].
  destruct (decide (rstrip s = s)) as [E|E].
  - rewrite E in *. by apply Hl2.
  - apply Hr2 in E. lia.
Qed.

Lemma elem_of_index_labelled df i :
  i ∈ index (encode (normalize df)) ↔
  ∃ raw, raw_rows df !! i = Some raw ∧ usable raw = true.
Proof.
  unfold index. rewrite list_elem_of_fmap. split.
  - intros (r & -> & (j & raw & ? & ? & ->)%elem_of_labelled). eauto.
  - intros (raw & ? & ?). eexists. split; [|apply elem_of_labelled; eauto].
    done.
Qed.

(** C9: the result is upper-cased but not stripped: a row whose result cell
    is A, D or H (in either case) with whitespace before or after it gets no
    label and is in neither the derived frame nor the written table. *)
Theorem C9_padded_result_dropped df rep i raw s :
  pipeline df = Ok rep →
  raw_rows df !! i = Some raw →
  raw !! "FTResult" = Some s →
  strip s ≠ s →
  upper (strip s) ∈ ["A"; "D"; "H"] →
  label_of raw = NA
  ∧ (i ∉ index (X_final rep)) ∧ (i ∉ index (written rep)).
Proof.
  intros [_ ->]%pipeline_inv Hi Hs Hpad Hin.
  assert (label_of raw = NA) as Hna.
  { rewrite label_of_cell, Hs.
    destruct (map_features !! upper s) as [z|] eqn:E; [|done].
    assert (String.length (upper s) = 1%nat) as Hone
      by (apply map_features_single; eauto).
    rewrite upper_length in Hone.
    apply strip_shorter in Hpad.
    assert (String.length (upper (strip s)) = 1%nat) as Hlen.
    { by apply list_elem_of_In in Hin as [<-|[<-|[<-|[]]]]. }
    rewrite upper_length in Hlen. lia. }
  cbn [X_final written split_and_report]. rewrite index_select.
  assert (i ∉ index (derived df)); [|done].
  intros (raw' & Hi' & Hu)%elem_of_index_derived.
  rewrite Hi in Hi'. injection Hi' as <-.
  apply usable_label in Hu as [z Hz]. by rewrite Hna in Hz.
Qed.

(** ** Season labels on dropped rows *)

(** C10: whether some row has a season label is decided on the rows that
    are left after the two drops: when every row of the file that has a
    season label is dropped before the difference features, every retained
    row gets the calendar year of its date. *)
Theorem C10_season_decision_after_drops df rep :
  pipeline df = Ok rep →
  (∀ i raw, raw_rows df !! i = Some raw →
     "Season" ∈ raw_columns df → is_Some (raw !! "Season") →
     i ∉ index (encode (normalize df))) →
  any_notna (col "season") (before_year df) = false
  ∧ ∀ r, r ∈ rows (X_final rep) →
      ∃ t, col "date" r = Date t ∧ col "year" r = Int (dt_year t).
Proof.
  intros [_ ->]%pipeline_inv Hdrop.
  assert (any_notna (col "season") (before_year df) = false) as Hany.
  { apply not_true_is_false.
    intros (r & Hr & Hn)%any_notna_true.
    rewrite rows_before_year in Hr.
    apply list_elem_of_fmap in Hr as ([i raw] & -> & [Hi Hu]%elem_of_usable_rows).
    cbn [fst snd] in *.
    rewrite season_derived_row, season_cell in Hn. cbn [snd] in Hn.
    case_bool_decide as Hc; [|done].
    destruct (raw !! "Season") as [s|] eqn:Es; [|done].
    apply (Hdrop i raw); [done|done|by rewrite Es|].
    apply elem_of_index_labelled. eauto. }
  split; [done|].
  cbn [X_final split_and_report].
  intros r (i & raw & Hi & Hu & ->)%elem_of_derived.
  destruct (usable_date _ Hu) as [t Ht]. exists t.
  rewrite (col_final_row "date") by done.
  rewrite col_final_row_year, date_derived_row.
  split; [done|].
  rewrite (year_series_value _ _ t) by (by rewrite date_derived_row).
  by rewrite Hany.
Qed.

(** * Further properties of the script *)

(** ** Columns of the output *)

(** Whatever optional columns the file has, a successful run gives the
    derived frame the same 32 columns, prints the same eight feature names
    and writes the same 13 columns. *)
Theorem written_columns_fixed df rep :
  pipeline df = Ok rep →
  columns (X_final rep) =
    ["date"; "home"; "away"; "result"; "elo_h"; "elo_a"; "form3_h";
     "form3_a"; "form5_h"; "form5_a"; "shots_h"; "shots_a"; "sot_h";
     "sot_a"; "corners_h"; "corners_a"; "yc_h"; "yc_a"; "rc_h"; "rc_a";
     "season"; "league"; "y"; "d_elo"; "d_form3"; "d_form5"; "d_shots";
     "d_sot"; "d_corners"; "d_yc"; "d_rc"; "year"]
  ∧ feature_cols rep =
    ["d_elo"; "d_form3"; "d_form5"; "d_shots"; "d_sot"; "d_corners";
     "d_yc"; "d_rc"]
  ∧ columns (written rep) =
    ["date"; "home"; "away"; "y"; "year"; "d_elo"; "d_form3"; "d_form5";
     "d_shots"; "d_sot"; "d_corners"; "d_yc"; "d_rc"].
Proof.
  intros [_ ->]%pipeline_inv.
  cbn [X_final feature_cols written split_and_report select columns].
  split; [apply columns_derived|].
  split; [|apply out_cols_derived].
  unfold feature_cols_of. by rewrite columns_derived.
Qed.

(** ** Difference cells *)

Lemma diff_put X h a c v r :
  c ≠ h → c ≠ a → diff X h a (put c v r) = diff X h a r.
Proof.
  intros Hh Ha. unfold diff, sub, fnum, to_numeric_s. by rewrite !col_put_ne.
Qed.

(** The texts [fnum] sees in a renamed column are the cells of its source
    column in the rows that are kept. *)
Lemma texts_labelled df h hs :
  (∀ i raw, col h (new_row (selection df) i raw)
            = from_option (λ s : Series RawRow, s raw) NA (get df hs)) →
  h ≠ "y" →
  texts h (encode (normalize df)) = source_column df hs.
Proof.
  intros Hcol Hy. unfold texts, source_column.
  rewrite rows_labelled, <- list_fmap_compose.
  apply list_fmap_ext. intros k [i raw] _. cbn [compose fst snd].
  rewrite col_with_label, Hcol by done.
  unfold get, source_cell, getitem.
  case_bool_decide; [|reflexivity].
  cbn [from_option snd]. destruct (raw !! hs); reflexivity.
Qed.

Lemma diff_new_row df i raw h a hs as_ :
  (∀ i raw, col h (new_row (selection df) i raw)
            = from_option (λ s : Series RawRow, s raw) NA (get df hs)) →
  (∀ i raw, col a (new_row (selection df) i raw)
            = from_option (λ s : Series RawRow, s raw) NA (get df as_)) →
  h ≠ "y" → a ≠ "y" →
  diff (encode (normalize df)) h a (new_row (selection df) i raw)
  = diff_cell (source_column df hs) (source_column df as_)
      (source_cell df raw hs) (source_cell df raw as_).
Proof.
  intros Hh Ha Hhy Hay. unfold diff, sub, fnum, to_numeric_s.
  rewrite (texts_labelled df h hs), (texts_labelled df a as_) by done.
  rewrite Hh, Ha.
  unfold get, source_cell, getitem, diff_cell.
  repeat case_bool_decide; cbn [from_option]; try done.
  - destruct (raw !! hs) as [x|], (raw !! as_) as [y|];
      cbn [from_option]; try done.
    + by destruct (to_numeric _ x), (to_numeric _ y).
    + by destruct (to_numeric _ x).
  - destruct (raw !! hs) as [x|]; cbn [from_option]; [|done].
    by destruct (to_numeric _ x).
Qed.

Ltac col_of_with_diffs :=
  unfold with_diffs, pairs; cbn [foldl fst snd];
  repeat (rewrite col_put_ne by done); rewrite col_put_eq;
  repeat (rewrite diff_put by done); reflexivity.

Ltac diff_case h a :=
  split; [done|];
  exists h, a; split_and!;
    [by_compute|done|done|intros; reflexivity|intros; reflexivity].

Lemma col_with_diffs_value X h a n r :
  (h, a, n) ∈ [ ("elo_h", "elo_a", "d_elo"); ("form3_h", "form3_a", "d_form3");
                ("form5_h", "form5_a", "d_form5") ] ++ pairs →
  col n (with_diffs X r) = diff X h a r.
Proof.
  intros Hin. apply list_elem_of_In in Hin. cbn in Hin.
  destruct Hin as [E|[E|[E|[E|[E|[E|[E|[E|[]]]]]]]]];
    injection E as <- <- <-; col_of_with_diffs.
Qed.

Lemma diff_sources_written hs as_ n :
  (hs, as_, n) ∈ diff_sources →
  n ≠ "year"
  ∧ n ∈ ["date"; "home"; "away"; "y"; "year"; "d_elo"; "d_form3";
         "d_form5"; "d_shots"; "d_sot"; "d_corners"; "d_yc"; "d_rc"].
Proof.
  intros Hin. apply list_elem_of_In in Hin. cbn in Hin.
  destruct Hin as [E|[E|[E|[E|[E|[E|[E|[E|[]]]]]]]]];
    injection E as <- <- <-; (split; [done|by_compute]).
Qed.

(** The difference cell of a derived row, read off the cells of the file. *)
Lemma derived_diff_cell df i raw hs as_ n :
  (hs, as_, n) ∈ diff_sources →
  cells (derived_row df (i, raw)) !! n
  = Some (diff_cell (source_column df hs) (source_column df as_)
            (source_cell df raw hs) (source_cell df raw as_)).
Proof.
  intros Hin.
  assert (n ≠ "y"
          ∧ ∃ h a, (h, a, n) ∈ [ ("elo_h", "elo_a", "d_elo");
                                 ("form3_h", "form3_a", "d_form3");
                                 ("form5_h", "form5_a", "d_form5") ] ++ pairs
              ∧ h ≠ "y" ∧ a ≠ "y"
              ∧ (∀ i raw, col h (new_row (selection df) i raw)
                   = from_option (λ s : Series RawRow, s raw) NA (get df hs))
              ∧ (∀ i raw, col a (new_row (selection df) i raw)
                   = from_option (λ s : Series RawRow, s raw) NA
                       (get df as_)))
    as (Hy & h & a & Hpair & Hh & Ha & Eh & Ea).
  { apply list_elem_of_In in Hin. cbn in Hin.
    destruct Hin as [E|[E|[E|[E|[E|[E|[E|[E|[]]]]]]]]];
      injection E as <- <- <-;
      [ diff_case "elo_h" "elo_a" | diff_case "form3_h" "form3_a"
      | diff_case "form5_h" "form5_a" | diff_case "shots_h" "shots_a"
      | diff_case "sot_h" "sot_a" | diff_case "corners_h" "corners_a"
      | diff_case "yc_h" "yc_a" | diff_case "rc_h" "rc_a" ]. }
  assert (col n (derived_row df (i, raw))
          = diff_cell (source_column df hs) (source_column df as_)
              (source_cell df raw hs) (source_cell df raw as_)) as Hc.
  { unfold derived_row. cbn [fst snd].
    rewrite (col_with_diffs_value _ h a) by done.
    unfold with_label. rewrite diff_put by done.
    by apply diff_new_row. }
  revert Hc. unfold col.
  assert (is_Some (cells (derived_row df (i, raw)) !! n)) as [v ->];
    [|by intros [= ->]].
  unfold derived_row. cbn [fst snd].
  apply list_elem_of_In in Hpair. cbn in Hpair.
  destruct Hpair as [E|[E|[E|[E|[E|[E|[E|[E|[]]]]]]]]];
    injection E as <- <- <-;
    unfold with_diffs, pairs; cbn [foldl fst snd put cells];
    repeat (rewrite lookup_insert_ne by done); rewrite lookup_insert_eq; eauto.
Qed.


(** When a source column of a difference is not in the header of the file,
    the difference column is still written and all its cells are missing. *)
Theorem absent_source_gives_missing_column df rep hs as_ n :
  pipeline df = Ok rep →
  (hs, as_, n) ∈ diff_sources →
  hs ∉ raw_columns df ∨ as_ ∉ raw_columns df →
  n ∈ columns (written rep)
  ∧ ∀ r, r ∈ rows (written rep) → cells r !! n = Some NA.
Proof.
  intros [_ ->]%pipeline_inv Hin Habs.
  destruct (diff_sources_written _ _ _ Hin) as [Hyear Hcols].
  cbn [written split_and_report select columns]. rewrite out_cols_derived.
  split; [done|].
  intros r (i & raw & Hi & Hu & ->)%elem_of_written.
  rewrite cells_project, out_cols_derived.
  rewrite bool_decide_eq_true_2 by done.
  rewrite cells_final_row by done.
  rewrite (derived_diff_cell df i raw hs as_ n Hin).
  f_equal. unfold source_cell, diff_cell.
  destruct Habs as [Hn|Hn].
  - by rewrite (bool_decide_eq_false_2 _ Hn).
  - rewrite (bool_decide_eq_false_2 _ Hn).
    by destruct (if bool_decide _ then _ else _).
Qed.

(** ** Which rows are kept, and what is copied *)

Lemma date_of_Date raw t :
  date_of raw = Date t ↔
  ∃ d, raw !! "MatchDate" = Some d ∧ to_datetime d = Some t.
Proof.
  unfold date_of, to_datetime_s, getitem.
  destruct (raw !! "MatchDate") as [d|]; simpl.
  - destruct (to_datetime d) as [t'|] eqn:E; simpl; split.
    + intros [= ->]. eauto.
    + intros (d' & [= <-] & Ht). congruence.
    + done.
    + intros (d' & [= <-] & Ht). congruence.
  - split; [done|]. by intros (? & ? & _).
Qed.

Lemma usable_cells raw :
  usable raw = true ↔
  (∃ d t, raw !! "MatchDate" = Some d ∧ to_datetime d = Some t)
  ∧ ∃ s, raw !! "FTResult" = Some s ∧ s ∈ ["A"; "a"; "D"; "d"; "H"; "h"].
Proof.
  rewrite usable_iff. split.
  - intros [[t (d & Hd & Ht)%date_of_Date] [z (s & Hs & Hz)%label_of_Int]].
    split; [eauto|]. exists s. split; [done|].
    destruct Hz as [[[-> | ->] _]|[[[-> | ->] _]|[[-> | ->] _]]]; by_compute.
  - intros [(d & t & Hd & Ht) (s & Hs & Hin)]. split.
    + exists t. apply date_of_Date. eauto.
    + apply list_elem_of_In in Hin. cbn in Hin.
      destruct Hin as [<-|[<-|[<-|[<-|[<-|[<-|[]]]]]]];
        [exists 1|exists 1|exists 2|exists 2|exists 3|exists 3];
        apply label_of_Int; eexists; (split; [eassumption|]); tauto.
Qed.

(** A row of the file is written exactly when its date parses and its
    result is A, D or H in either case; nothing else (team names,
    statistics, season) decides whether a row is kept. *)
Theorem written_iff_date_and_result df rep i :
  pipeline df = Ok rep →
  i ∈ index (written rep) ↔
  ∃ raw, raw_rows df !! i = Some raw
    ∧ (∃ d t, raw !! "MatchDate" = Some d ∧ to_datetime d = Some t)
    ∧ ∃ s, raw !! "FTResult" = Some s ∧ s ∈ ["A"; "a"; "D"; "d"; "H"; "h"].
Proof.
  intros [_ ->]%pipeline_inv.
  cbn [written split_and_report]. rewrite index_select, elem_of_index_derived.
  by setoid_rewrite usable_cells.
Qed.



(** ** Row labels *)

Lemma StronglySorted_sublist {A} (R : relation A) (l1 l2 : list A) :
  l1 `sublist_of` l2 → StronglySorted R l2 → StronglySorted R l1.
Proof.
  induction 1 as [|x l1 l2 Hsub IH|x l1 l2 Hsub IH]; intros Hs; [done| |].
  - apply StronglySorted_inv in Hs as [Hs Hall]. constructor; [by apply IH|].
    rewrite Forall_forall in *. intros y Hy. apply Hall.
    by apply (sublist_subseteq _ _ Hsub).
  - apply StronglySorted_inv in Hs as [Hs _]. by apply IH.
Qed.

Lemma StronglySorted_seq j n : StronglySorted lt (seq j n).
Proof.
  revert j. induction n as [|n IH]; intros j; simpl; constructor; [apply IH|].
  apply Forall_forall. intros k Hk%elem_of_seq. lia.
Qed.

Lemma index_derived_sublist df :
  index (derived df) `sublist_of` seq 0 (length (raw_rows df)).
Proof.
  rewrite index_derived. unfold usable_rows.
  rewrite <- index_pairs. apply fmap_sublist, sublist_filter.
Qed.

(** The rows of the written table carry the positions they had in the file:
    the labels are strictly increasing, so no row is written twice and none
    is reordered, and each label is a position of the file. *)
Theorem written_labels_increasing df rep :
  pipeline df = Ok rep →
  StronglySorted lt (index (written rep))
  ∧ NoDup (index (written rep))
  ∧ ∀ i, i ∈ index (written rep) → (i < length (raw_rows df))%nat.
Proof.
  intros [_ ->]%pipeline_inv.
  cbn [written split_and_report]. rewrite index_select. split_and!.
  - eapply StronglySorted_sublist; [apply index_derived_sublist|].
    apply StronglySorted_seq.
  - apply NoDup_index_derived.
  - intros i Hi. apply (sublist_subseteq _ _ (index_derived_sublist df)) in Hi.
    apply elem_of_seq in Hi. lia.
Qed.

(** ** Counts *)

Lemma split_lengths (l : list Row) :
  (∀ r, r ∈ l → ∃ z, col "year" r = Int z) →
  (length (filter (λ r, year_le 2022 r) l)
   + length (filter (λ r, year_eq 2023 r) l)
   + length (filter (λ r, year_eq 2024 r) l)
   + length (filter (λ r, ¬ year_le 2024 r) l) = length l)%nat.
Proof.
  induction l as [|r l IH]; intros Hall; [done|].
  assert (∀ r', r' ∈ l → ∃ z, col "year" r' = Int z) as Hl
    by (intros r' Hr'; apply Hall; by right).
  specialize (IH Hl). destruct (Hall r) as [z Hz]; [by left|].
  rewrite !filter_cons. unfold year_le, year_eq in *. rewrite Hz.
  destruct (decide (z ≤ 2022)).
  - rewrite (proj2 (Z.leb_le z 2022)), (proj2 (Z.leb_le z 2024)) by lia.
    rewrite (proj2 (Z.eqb_neq z 2023)), (proj2 (Z.eqb_neq z 2024)) by lia.
    simpl. lia.
  - rewrite (proj2 (Z.leb_gt z 2022)) by lia.
    destruct (decide (z = 2023)) as [->|]; [simpl; lia|].
    rewrite (proj2 (Z.eqb_neq z 2023)) by lia.
    destruct (decide (z = 2024)) as [->|]; [simpl; lia|].
    rewrite (proj2 (Z.eqb_neq z 2024)), (proj2 (Z.leb_gt z 2024)) by lia.
    simpl. lia.
Qed.

(** The printed total is the number of usable rows of the file, and the
    three printed split sizes add up to the total minus the rows whose year
    is after 2024. *)
Theorem printed_counts df rep :
  pipeline df = Ok rep →
  total_usable rep = length (usable_rows df)
  ∧ (total_usable rep ≤ length (raw_rows df))%nat
  ∧ (split_sizes rep).1.1 = length (rows (train rep))
  ∧ (split_sizes rep).1.2 = length (rows (validation rep))
  ∧ (split_sizes rep).2 = length (rows (test rep))
  ∧ ((split_sizes rep).1.1 + (split_sizes rep).1.2 + (split_sizes rep).2
     + length (filter (λ r, ¬ year_le 2024 r) (rows (X_final rep)))
     = total_usable rep)%nat.
Proof.
  intros [_ ->]%pipeline_inv.
  cbn [total_usable split_sizes train validation test X_final
       split_and_report fst snd].
  split_and!; try done.
  - by rewrite rows_derived_frame, length_fmap.
  - rewrite rows_derived_frame, length_fmap. unfold usable_rows.
    etransitivity; [apply length_filter|]. by rewrite length_imap.
  - rewrite !rows_where. apply split_lengths.
    intros r (i & raw & Hi & Hu & ->)%elem_of_derived.
    destruct (usable_date _ Hu) as [t Ht].
    rewrite col_final_row_year.
    rewrite (year_series_value _ _ t) by (by rewrite date_derived_row).
    eauto.
Qed.

(** ** Files without a season column *)

Lemma date_year_when_no_season df r :
  any_notna (col "season") (before_year df) = false →
  r ∈ rows (derived df) →
  ∃ t, col "date" r = Date t ∧ col "year" r = Int (dt_year t).
Proof.
  intros Hany (i & raw & Hi & Hu & ->)%elem_of_derived.
  destruct (usable_date _ Hu) as [t Ht]. exists t.
  rewrite (col_final_row "date") by done.
  rewrite col_final_row_year, date_derived_row.
  split; [done|].
  rewrite (year_series_value _ _ t) by (by rewrite date_derived_row).
  by rewrite Hany.
Qed.

(** When the file has no Season column every retained row gets the calendar
    year of its date, whatever the rows hold. *)
Theorem no_season_column_date_year df rep :
  pipeline df = Ok rep →
  "Season" ∉ raw_columns df →
  ∀ r, r ∈ rows (X_final rep) →
    col "season" r = NA
    ∧ ∃ t, col "date" r = Date t ∧ col "year" r = Int (dt_year t).
Proof.
  intros [_ ->]%pipeline_inv Hno r Hr. cbn [X_final split_and_report] in *.
  assert (∀ p, col "season" (derived_row df p) = NA) as Hseason.
  { intros p. rewrite season_derived_row, season_cell.
    by rewrite bool_decide_eq_false_2. }
  split.
  - apply elem_of_derived in Hr as (i & raw & _ & _ & ->).
    by rewrite (col_final_row "season").
  - apply (date_year_when_no_season df); [|done].
    apply not_true_is_false. intros (r' & Hr' & Hn)%any_notna_true.
    rewrite rows_before_year in Hr'.
    apply list_elem_of_fmap in Hr' as (p & -> & _).
    by rewrite Hseason in Hn.
Qed.

(** ** The written rows are rectangular *)



(** ** The header of the file *)

Lemma filter_ext_elem {A} (P Q : A → Prop)
    `{!∀ x, Decision (P x), !∀ x, Decision (Q x)} (l : list A) :
  (∀ x, x ∈ l → P x ↔ Q x) → filter P l = filter Q l.
Proof.
  induction l as [|x l IH]; intros Hext; [done|].
  rewrite !filter_cons.
  rewrite IH by (intros y Hy; apply Hext; by right).
  destruct (decide (P x)) as [HP|HP], (decide (Q x)) as [HQ|HQ]; try done.
  - by apply Hext in HP; [|left].
  - by apply Hext in HQ; [|left].
Qed.

(** The run looks at the header only to ask whether it has the names of
    [source_columns]: two files with the same rows whose headers have the
    same of these names give the same outcome, whatever the order of the
    columns and whatever other columns there are. *)
Theorem header_order_irrelevant cols1 cols2 raws :
  (∀ c, c ∈ source_columns → c ∈ cols1 ↔ c ∈ cols2) →
  pipeline (mkRaw cols1 raws) = pipeline (mkRaw cols2 raws).
Proof.
  intros Hsame.
  assert (missing (mkRaw cols1 raws) = missing (mkRaw cols2 raws)) as Hm.
  { unfold missing. cbn [raw_columns]. apply filter_ext_elem.
    intros c Hc.
    assert (c ∈ source_columns) as Hs.
    { apply list_elem_of_In in Hc. cbn in Hc.
      destruct Hc as [<-|[<-|[<-|[<-|[]]]]]; by_compute. }
    by rewrite (Hsame c Hs). }
  assert (∀ c, c ∈ source_columns →
               get (mkRaw cols1 raws) c = get (mkRaw cols2 raws) c) as Hget.
  { intros c Hs. unfold get. cbn [raw_columns].
    by rewrite (bool_decide_ext _ _ (Hsame c Hs)). }
  assert (selection (mkRaw cols1 raws) = selection (mkRaw cols2 raws)) as Hsel.
  { unfold selection. by rewrite !Hget by by_compute. }
  unfold pipeline, normalize, new_frame. cbn [raw_rows].
  by rewrite Hm, Hsel.
Qed.

(** A file that has the required columns and no rows is processed without
    error: the written table has its 13 columns and no rows, and all printed
    counts are zero. *)
Theorem header_only_file cols :
  (∀ c, c ∈ must_have → c ∈ cols) →
  ∃ rep, pipeline (mkRaw cols []) = Ok rep
    ∧ rows (written rep) = []
    ∧ length (columns (written rep)) = 13%nat
    ∧ total_usable rep = 0%nat
    ∧ split_sizes rep = (0%nat, 0%nat, 0%nat).
Proof.
  intros Hreq%(missing_nil (mkRaw cols [])).
  exists (split_and_report (derived (mkRaw cols []))).
  split; [by apply pipeline_ok|].
  assert (rows (derived (mkRaw cols [])) = []) as Hrows
    by (by rewrite rows_derived_frame).
  cbn [written total_usable split_sizes split_and_report select rows columns].
  rewrite !rows_where, Hrows, out_cols_derived.
  split; [reflexivity|]. split; [reflexivity|]. split; reflexivity.
Qed.

(** ** The four digits of a season label *)

Lemma is_digit_value c : is_digit c = true → 0 ≤ digit_value c ≤ 9.
Proof.
  unfold is_digit, digit_value.
  intros [H1%Nat.leb_le H2%Nat.leb_le]%andb_prop. lia.
Qed.

Lemma append_nil_l (t : string) : "" +:+ t = t.
Proof. done. Qed.

Lemma append_cons (c : ascii) (s t : string) :
  String c s +:+ t = String c (s +:+ t).
Proof. done. Qed.

Lemma four_digits_Some s m :
  four_digits s = Some m →
  ∃ post, s = m +:+ post ∧ String.length m = 4%nat
    ∧ all_chars is_digit m = true ∧ 0 ≤ digits_value m ≤ 9999.
Proof.
  destruct s as [|a [|b [|c [|d post]]]]; try done.
  unfold four_digits.
  destruct (is_digit a) eqn:Ea; [|done].
  destruct (is_digit b) eqn:Eb; [|done].
  destruct (is_digit c) eqn:Ec; [|done].
  destruct (is_digit d) eqn:Ed; [|done].
  cbn [andb]. intros [= <-]. exists post.
  rewrite !append_cons, append_nil_l. cbn [String.length all_chars].
  rewrite Ea, Eb, Ec, Ed. split_and!; try done;
    unfold digits_value; cbn [digits_value_from];
    apply is_digit_value in Ea, Eb, Ec, Ed; lia.
Qed.

Lemma extract_4digits_cons c t :
  extract_4digits (String c t)
  = match four_digits (String c t) with
    | Some m => Some m
    | None => extract_4digits t
    end.
Proof. done. Qed.

(** [extract_4digits] returns the leftmost run of four digits: the text
    splits around the run, no earlier position starts four digits, and the
    run denotes a number from 0 to 9999; it returns nothing exactly when no
    position of the text starts four digits. *)
Theorem extract_4digits_leftmost s :
  match extract_4digits s with
  | Some m =>
      ∃ pre post, s = pre +:+ m +:+ post
        ∧ String.length m = 4%nat ∧ all_chars is_digit m = true
        ∧ 0 ≤ digits_value m ≤ 9999
        ∧ ∀ pre' rest, s = pre' +:+ rest →
            (String.length pre' < String.length pre)%nat →
            four_digits rest = None
  | None => ∀ pre rest, s = pre +:+ rest → four_digits rest = None
  end.
Proof.
  induction s as [|c t IH].
  - cbn [extract_4digits four_digits]. intros [|c' pre] rest.
    + rewrite append_nil_l. by intros <-.
    + rewrite append_cons. done.
  - rewrite extract_4digits_cons.
    destruct (four_digits (String c t)) as [m|] eqn:E.
    + apply four_digits_Some in E as (post & Hs & Hlen & Hdig & Hval).
      exists "", post. rewrite append_nil_l. split_and!; try done; try lia.
      intros pre' rest _ Hlt. cbn [String.length] in Hlt. lia.
    + destruct (extract_4digits t) as [m|].
      * destruct IH as (pre & post & -> & Hlen & Hdig & Hval & Hleft).
        exists (String c pre), post. rewrite append_cons.
        split_and!; try done; try lia.
        intros [|c' pre'] rest.
        -- rewrite append_nil_l. by intros <- _.
        -- rewrite append_cons. intros [= <- Ht] Hlt.
           cbn [String.length] in Hlt. apply (Hleft pre' rest Ht). lia.
      * intros [|c' pre] rest.
        -- rewrite append_nil_l. by intros <-.
        -- rewrite append_cons. intros [= <- Ht]. by apply (IH pre rest).
Qed.

(** ** The result text *)

Lemma upper_char_idem c : upper_char (upper_char c) = upper_char c.
Proof. by destruct c as [[] [] [] [] [] [] [] []]. Qed.

Lemma upper_idem s : upper (upper s) = upper s.
Proof.
  induction s as [|c s IH]; [done|].
  cbn [upper]. by rewrite upper_char_idem, IH.
Qed.

(** The result column of the normalized frame holds upper-case text: no
    lower-case ASCII letter is left in it. *)
Theorem normalized_result_is_upper df r :
  r ∈ rows (normalize df) →
  ∃ u, col "result" r = Str u ∧ upper u = u.
Proof.
  intros (i & raw & Hi & -> & _ & Hn)%elem_of_normalize.
  change (col "result" (new_row (selection df) i raw)) with (result_of raw).
  revert Hn. unfold result_of, str_upper.
  destruct (astype_str (getitem "FTResult") raw) as [|s| | |]; try done.
  intros _. exists (upper s). by rewrite upper_idem.
Qed.


(** ** The partition year against the specification's wording *)

Lemma is_digit_spec c : is_digit c = true ↔ spec_decimal_digit c.
Proof.
  unfold is_digit, spec_decimal_digit.
  rewrite andb_true_iff, !Nat.leb_le. done.
Qed.

Lemma four_digits_of_text m post :
  spec_four_digit_text m → four_digits (m +:+ post) = Some m.
Proof.
  intros (a & b & c & d & -> & Ha & Hb & Hc & Hd).
  apply is_digit_spec in Ha, Hb, Hc, Hd.
  rewrite !append_cons, append_nil_l. unfold four_digits.
  by rewrite Ha, Hb, Hc, Hd.
Qed.

Lemma four_digits_Some_text t m :
  four_digits t = Some m → spec_starts_with_four_digits t.
Proof.
  destruct t as [|a [|b [|c [|d post]]]]; try done.
  unfold four_digits.
  destruct (is_digit a) eqn:Ea; [|done].
  destruct (is_digit b) eqn:Eb; [|done].
  destruct (is_digit c) eqn:Ec; [|done].
  destruct (is_digit d) eqn:Ed; [|done].
  cbn [andb]. intros [= <-].
  apply is_digit_spec in Ea, Eb, Ec, Ed.
  eexists _, post. split; [by eexists a, b, c, d|].
  by rewrite !append_cons, append_nil_l.
Qed.

Lemma four_digits_None_spec t :
  four_digits t = None ↔ ¬ spec_starts_with_four_digits t.
Proof.
  split.
  - intros Hn (m & post & Hm & ->).
    by rewrite (four_digits_of_text m post Hm) in Hn.
  - intros Hno. destruct (four_digits t) as [m|] eqn:E; [|done].
    by apply four_digits_Some_text in E.
Qed.

Lemma extract_of_first_run s m :
  spec_first_four_digit_run s m → extract_4digits s = Some m.
Proof.
  intros [Hm (pre & post & -> & Hleft)].
  induction pre as [|c pre IH].
  - rewrite append_nil_l.
    pose proof (four_digits_of_text m post Hm) as Hfour.
    destruct Hm as (a & b & c & d & -> & _).
    rewrite append_cons in *. rewrite extract_4digits_cons. by rewrite Hfour.
  - rewrite append_cons, extract_4digits_cons.
    assert (four_digits (String c (pre +:+ m +:+ post)) = None) as ->.
    { apply four_digits_None_spec.
      apply (Hleft "" (String c (pre +:+ m +:+ post))).
      - by rewrite append_nil_l, append_cons.
      - cbn [String.length]. lia. }
    apply IH. intros pre' t Ht Hlt.
    apply (Hleft (String c pre') t).
    + by rewrite !append_cons, Ht.
    + cbn [String.length]. lia.
Qed.

Lemma extract_of_no_run s :
  spec_no_four_digit_run s → extract_4digits s = None.
Proof.
  induction s as [|c s IH]; intros Hno; [done|].
  rewrite extract_4digits_cons.
  assert (four_digits (String c s) = None) as ->.
  { apply four_digits_None_spec. apply (Hno "" (String c s)).
    by rewrite append_nil_l. }
  apply IH. intros pre t Ht. apply (Hno (String c pre) t).
  by rewrite append_cons, Ht.
Qed.

Lemma digits_value_spec m :
  spec_four_digit_text m → digits_value m = spec_decimal m.
Proof.
  intros (a & b & c & d & -> & Ha & Hb & Hc & Hd).
  unfold digits_value, spec_decimal. cbn [digits_value_from].
  unfold digit_value, spec_decimal_digit in *. lia.
Qed.

Lemma any_notna_season X :
  any_notna (col "season") X = true ↔
  ∃ r, r ∈ rows X ∧ col "season" r ≠ NA.
Proof.
  rewrite any_notna_true. split; intros (r & Hr & Hn); exists r; split;
    try done; by destruct (col "season" r).
Qed.

(** C4: on a file with the required columns the run succeeds and every
    retained row gets an integer year.  When some retained row has a season
    label, the year of a row is the number denoted by the first run of four
    digits of its own season label, and the calendar year of its date when
    its season label has no such run or is missing; when no retained row has
    a season label, it is the calendar year of the row's date. *)
Theorem C4_partition_year df :
  missing df = [] →
  ∃ rep, pipeline df = Ok rep ∧
    ∀ r, r ∈ rows (X_final rep) →
      ∃ raw d t,
        raw_rows df !! label r = Some raw
        ∧ raw !! "MatchDate" = Some d ∧ to_datetime d = Some t
        ∧ col "date" r = Date t
        ∧ col "season" r
          = (if bool_decide ("Season" ∈ raw_columns df)
             then from_option Str NA (raw !! "Season") else NA)
        ∧ (∃ z, col "year" r = Int z)
        ∧ ((∃ r', r' ∈ rows (X_final rep) ∧ col "season" r' ≠ NA) →
             (∀ s m, col "season" r = Str s →
                spec_first_four_digit_run s m →
                col "year" r = Int (spec_decimal m))
             ∧ (∀ s, col "season" r = Str s → spec_no_four_digit_run s →
                  col "year" r = Int (dt_year t))
             ∧ (col "season" r = NA → col "year" r = Int (dt_year t)))
        ∧ ((∀ r', r' ∈ rows (X_final rep) → col "season" r' = NA) →
             col "year" r = Int (dt_year t)).
Proof.
  intros Hm. destruct (partition_year_formula df Hm) as (rep & Hp & Hrows).
  exists rep. split; [done|]. intros r Hr.
  destruct (Hrows r Hr) as (raw & t & Hi & Hdate & Hd & Hs & Hy).
  apply date_of_Date in Hdate as (d & Hraw & Ht).
  exists raw, d, t. split_and!; try done.
  - rewrite Hy. eauto.
  - intros Hany%any_notna_season. rewrite Hany in Hy. split_and!.
    + intros s m Hseason Hrun. rewrite Hseason in Hy.
      rewrite (extract_of_first_run s m Hrun) in Hy.
      destruct Hrun as [Hm4 _]. by rewrite <- (digits_value_spec m Hm4).
    + intros s Hseason Hno. rewrite Hseason in Hy.
      by rewrite (extract_of_no_run s Hno) in Hy.
    + intros Hseason. by rewrite Hseason in Hy.
  - intros Hall.
    assert (any_notna (col "season") (X_final rep) = false) as Hany.
    { apply not_true_is_false. intros (r' & Hr' & Hn)%any_notna_season.
      by apply Hn, Hall. }
    by rewrite Hany in Hy.
Qed.

End Properties.

(** * The model on the sample files *)

(** The sample files are run with the sample implementation of the pandas
    operations. *)
#[local] Existing Instance sample_pandas.


(** C1 (as the code behaves): for a file that has HomeShots but no AwayShots
    column the run succeeds and the written table does have a d_shots
    column, which holds a missing value in every row: the frame built on
    lines 22-44 has a shots_a column of missing values, so the test of line
    68 succeeds. *)
Theorem C1_d_shots_written_without_away_shots :
  "HomeShots" ∈ raw_columns df_home_shots_only
  ∧ ("AwayShots" ∉ raw_columns df_home_shots_only)
  ∧ ∃ rep, pipeline df_home_shots_only = Ok rep
      ∧ "shots_a" ∈ columns (normalize df_home_shots_only)
      ∧ "d_shots" ∈ columns (written rep)
      ∧ (λ r, cells r !! "d_shots") <$> rows (written rep)
        = [Some NA; Some NA].
Proof.
  split; [by_compute|]. split; [by_compute|].
  exists (split_and_report (derived df_home_shots_only)).
  split; [by apply pipeline_ok|].
  split; [by_compute|]. split; [by_compute|].
  reflexivity.
Qed.

(** C2 (as the code behaves with object-dtype strings, where [astype(str)]
    makes the text nan of a missing value): row 2 of [df_seasons] has a
    date that parses and no result; it is still in the frame normalization
    returns, its result cell holding the text NAN, and it leaves only with
    the rows that get no label. *)
Theorem C2_missing_result_survives_normalization :
  @str_keeps_na sample_pandas = false
  ∧ ∃ raw, raw_rows df_seasons !! 2%nat = Some raw
      ∧ raw !! "FTResult" = None
      ∧ (∃ d t, raw !! "MatchDate" = Some d ∧ to_datetime d = Some t)
      ∧ (∃ r, r ∈ rows (normalize df_seasons) ∧ label r = 2%nat
              ∧ col "result" r = Str "NAN")
      ∧ 2%nat ∈ index (normalize df_seasons)
      ∧ (2%nat ∉ index (encode (normalize df_seasons))).
Proof.
  split; [reflexivity|].
  eexists. split; [reflexivity|]. split; [reflexivity|].
  split; [eexists _, _; split; reflexivity|].
  split; [|split; by_compute].
  eexists. split.
  - apply elem_of_normalize. eexists 2%nat, _.
    split; [reflexivity|]. split; [reflexivity|]. split; reflexivity.
  - split; reflexivity.
Qed.

Lemma C3_witness :
  ∃ rep, @pipeline sample_pandas df_seasons = Ok rep
    ∧ (3%nat ∉ index (written rep))
    ∧ ∃ r, r ∈ rows (written rep) ∧ label r = 5%nat ∧ col "y" r = Int 2.
Proof.
  exists (split_and_report (derived df_seasons)).
  split; [by apply pipeline_ok|].
  pose proof (@C3_label_mapping sample_pandas df_seasons _
                (pipeline_ok df_seasons eq_refl)) as (_ & Hdrop & Hmap).
  split.
  - eapply Hdrop; [reflexivity|].
    intros s Hs. vm_compute in Hs. injection Hs as <-.
    vm_compute. repeat split; discriminate.
  - eapply Hmap; [reflexivity|reflexivity| |].
    + eexists _, _. split; reflexivity.
    + right. left. split; [right; reflexivity|reflexivity].
Defined.

Lemma C4_witness :
  ∃ rep, @pipeline sample_pandas df_seasons = Ok rep
    ∧ (λ r, (label r, col "season" r, col "year" r)) <$> rows (X_final rep)
      = [ (0%nat, Str "2020/2021", Int 2020);
          (5%nat, Str "2023/2024", Int 2023);
          (6%nat, Str "autumn", Int 2024);
          (7%nat, NA, Int 2025) ].
Proof.
  destruct (@C4_partition_year sample_pandas df_seasons) as (rep & Hp & _);
    [reflexivity|].
  exists rep. split; [done|].
  rewrite (pipeline_ok df_seasons eq_refl) in Hp. injection Hp as <-.
  reflexivity.
Defined.

Lemma C5_witness :
  ∃ rep, @pipeline sample_pandas df_seasons = Ok rep
    ∧ ∀ r, ¬ (r ∈ rows (train rep) ∧ r ∈ rows (validation rep)).
Proof.
  exists (split_and_report (derived df_seasons)).
  split; [by apply pipeline_ok|].
  pose proof (@C5_splits_partition sample_pandas df_seasons _
                (pipeline_ok df_seasons eq_refl)) as (_ & _ & _ & Hdisj & _).
  exact Hdisj.
Defined.


Lemma C7_witness :
  (@main sample_pandas (mkWorld (Some df_no_result) false None)).1
  = Raise (RuntimeError
      "MATCHES.csv missing required columns: ['FTResult', 'AwayTeam']").
Proof.
  pose proof (@C7_errors sample_pandas
                (mkWorld (Some df_no_result) false None))
    as (_ & Hschema & _).
  destruct (Hschema df_no_result) as (Hmsg & _); [reflexivity| |exact Hmsg].
  exists "FTResult". split; by_compute.
Defined.

Lemma C9_witness :
  ∃ rep, @pipeline sample_pandas df_seasons = Ok rep
    ∧ (4%nat ∉ index (written rep)).
Proof.
  exists (split_and_report (derived df_seasons)).
  split; [by apply pipeline_ok|].
  eapply (@C9_padded_result_dropped sample_pandas df_seasons _ 4 _ " H").
  - by apply pipeline_ok.
  - reflexivity.
  - reflexivity.
  - vm_compute. discriminate.
  - by_compute.
Defined.

Lemma C10_witness :
  ∃ rep, @pipeline sample_pandas df_season_on_dropped_row = Ok rep
    ∧ ∀ r, r ∈ rows (X_final rep) →
        ∃ t, col "date" r = Date t ∧ col "year" r = Int (dt_year t).
Proof.
  exists (split_and_report (derived df_season_on_dropped_row)).
  split; [by apply pipeline_ok|].
  refine (proj2 (@C10_season_decision_after_drops sample_pandas
                   df_season_on_dropped_row _
                   (pipeline_ok df_season_on_dropped_row eq_refl) _)).
  intros [|[|i]] raw Hi _ Hs.
  - by_compute.
  - injection Hi as <-. vm_compute in Hs. by destruct Hs.
  - discriminate.
Defined.

(** ** The further properties on the sample files *)

Lemma written_columns_fixed_witness :
  ∃ rep, pipeline df_home_shots_only = Ok rep
    ∧ length (columns (written rep)) = 13%nat.
Proof.
  exists (split_and_report (derived df_home_shots_only)).
  split; [by apply pipeline_ok|].
  destruct (@written_columns_fixed sample_pandas df_home_shots_only _
              (pipeline_ok df_home_shots_only eq_refl)) as (_ & _ & ->).
  reflexivity.
Defined.


Lemma absent_source_gives_missing_column_witness :
  ∃ rep, pipeline df_home_shots_only = Ok rep
    ∧ "d_shots" ∈ columns (written rep)
    ∧ ∀ r, r ∈ rows (written rep) → cells r !! "d_shots" = Some NA.
Proof.
  exists (split_and_report (derived df_home_shots_only)).
  split; [by apply pipeline_ok|].
  apply (@absent_source_gives_missing_column sample_pandas
           df_home_shots_only _ "HomeShots" "AwayShots" "d_shots"
           (pipeline_ok df_home_shots_only eq_refl)).
  - by_compute.
  - right. by_compute.
Defined.

Lemma written_iff_date_and_result_witness :
  ∃ rep, pipeline df_seasons = Ok rep ∧ 5%nat ∈ index (written rep).
Proof.
  exists (split_and_report (derived df_seasons)).
  split; [by apply pipeline_ok|].
  apply (@written_iff_date_and_result sample_pandas df_seasons _ 5
           (pipeline_ok df_seasons eq_refl)).
  eexists. split; [reflexivity|]. split.
  - eexists _, _. split; reflexivity.
  - eexists. split; [reflexivity|by_compute].
Defined.



Lemma written_labels_increasing_witness :
  ∃ rep, pipeline df_seasons = Ok rep ∧ NoDup (index (written rep)).
Proof.
  exists (split_and_report (derived df_seasons)).
  split; [by apply pipeline_ok|].
  destruct (@written_labels_increasing sample_pandas df_seasons _
              (pipeline_ok df_seasons eq_refl)) as (_ & Hnd & _).
  exact Hnd.
Defined.

Lemma printed_counts_witness :
  ∃ rep, pipeline df_seasons = Ok rep
    ∧ total_usable rep = length (usable_rows df_seasons).
Proof.
  exists (split_and_report (derived df_seasons)).
  split; [by apply pipeline_ok|].
  destruct (@printed_counts sample_pandas df_seasons _
              (pipeline_ok df_seasons eq_refl)) as (Htotal & _).
  exact Htotal.
Defined.

Lemma no_season_column_date_year_witness :
  ∃ rep, pipeline df_home_shots_only = Ok rep
    ∧ ∀ r, r ∈ rows (X_final rep) →
        col "season" r = NA
        ∧ ∃ t, col "date" r = Date t ∧ col "year" r = Int (dt_year t).
Proof.
  exists (split_and_report (derived df_home_shots_only)).
  split; [by apply pipeline_ok|].
  apply (@no_season_column_date_year sample_pandas df_home_shots_only _
           (pipeline_ok df_home_shots_only eq_refl)).
  by_compute.
Defined.


Lemma header_order_irrelevant_witness :
  pipeline (mkRaw ["Season"; "AwayTeam"; "HomeTeam"; "FTResult"; "MatchDate";
                   "Referee"] (raw_rows df_season_on_dropped_row))
  = pipeline df_season_on_dropped_row.
Proof.
  apply (@header_order_irrelevant sample_pandas).
  intros c Hc. apply list_elem_of_In in Hc. cbn in Hc.
  repeat (destruct Hc as [<-|Hc]; [by_compute|]).
  destruct Hc.
Defined.

Lemma header_only_file_witness :
  ∃ rep, pipeline (mkRaw must_have []) = Ok rep ∧ rows (written rep) = [].
Proof.
  destruct (@header_only_file sample_pandas must_have) as (rep & Hp & Hr & _);
    [done|].
  exists rep. by split.
Defined.

Lemma normalized_result_is_upper_witness :
  ∃ r u, r ∈ rows (normalize df_seasons) ∧ col "result" r = Str u
    ∧ upper u = u.
Proof.
  assert (new_row (selection df_seasons) 5
            (default ∅ (raw_rows df_seasons !! 5%nat))
          ∈ rows (normalize df_seasons)) as Hr.
  { apply elem_of_normalize. eexists 5%nat, _.
    split; [reflexivity|]. split; [reflexivity|]. split; reflexivity. }
  destruct (@normalized_result_is_upper sample_pandas df_seasons _ Hr)
    as (u & Hu & Hup).
  eauto.
Defined.
